(** * SkillSwap front end (frontend/src/App.js): a shallow embedding

    The React client of the skill-exchange platform is modelled as pure
    state-passing code over a [World] made of the browser's storage, the
    component states and the trace of observable effects (network requests,
    alerts, console errors, prompts).  App.js is present twice in the
    repository snapshot, as an earlier and a restyled revision.  The session
    store, the forms' submit handlers, the Dashboard's data functions and the
    action row of SwapRequestCard read the same in both; the later revision
    adds the [bio] field and the profile editor, and it is the one embedded. *)

From Stdlib Require Import List Arith NArith Ascii String Bool.
Import ListNotations.

Set Implicit Arguments.

(** ** JavaScript strings

    A JS string is a sequence of UTF-16 code units.  Only the string
    methods App.js calls are embedded: [split] with a one-character
    separator, [trim], [join], strict equality and truthiness. *)
Module JS.

Definition code_unit := N.
Definition str := list code_unit.

(** An ASCII literal of the source text. *)
Definition lit (s : string) : str :=
  map N_of_ascii (list_ascii_of_string s).

Definition comma : code_unit := 44%N.
Definition space : code_unit := 32%N.

(** [a === b] on strings. *)
Fixpoint eqb (a b : str) : bool :=
  match a, b with
  | [], [] => true
  | x :: a', y :: b' => N.eqb x y && eqb a' b'
  | _, _ => false
  end.

(** ToBoolean on a string: only the empty string is falsy. *)
Definition truthy (s : str) : bool :=
  match s with [] => false | _ :: _ => true end.

(** [a || b] on strings. *)
Definition or_else (a b : str) : str := if truthy a then a else b.

(** ECMAScript WhiteSpace and LineTerminator code points, the set
    String.prototype.trim strips. *)
Definition isWhiteSpace (c : code_unit) : bool :=
  (N.eqb c 9 || N.eqb c 10 || N.eqb c 11 || N.eqb c 12 || N.eqb c 13
   || N.eqb c 32 || N.eqb c 160 || N.eqb c 5760
   || (N.leb 8192 c && N.leb c 8202)
   || N.eqb c 8232 || N.eqb c 8233 || N.eqb c 8239 || N.eqb c 8287
   || N.eqb c 12288 || N.eqb c 65279)%N.

Fixpoint trimStart (s : str) : str :=
  match s with
  | [] => []
  | c :: s' => if isWhiteSpace c then trimStart s' else s
  end.

Definition trimEnd (s : str) : str := rev (trimStart (rev s)).

(** [s.trim()] *)
Definition trim (s : str) : str := trimEnd (trimStart s).

(** [s.split(sep)] for a separator of one code unit: the pieces between
    the occurrences of [sep]; the empty string gives one empty piece. *)
Fixpoint split (sep : code_unit) (s : str) : list str :=
  match s with
  | [] => [[]]
  | c :: s' =>
      if N.eqb c sep then [] :: split sep s'
      else match split sep s' with
           | p :: ps => (c :: p) :: ps
           | [] => [[c]]
           end
  end.

(** [l.join(sep)] on an array of strings. *)
Fixpoint join (sep : str) (l : list str) : str :=
  match l with
  | [] => []
  | x :: l' =>
      match l' with
      | [] => x
      | _ :: _ => x ++ sep ++ join sep l'
      end
  end.

(** A string neither starts nor ends with a white-space code unit. *)
Definition starts_clean (s : str) : Prop :=
  match s with [] => True | c :: _ => isWhiteSpace c = false end.

Definition ends_clean (s : str) : Prop := starts_clean (rev s).

End JS.

(** ** The skill-list encoding

    [formData.skills_offered.split(',').map(s => s.trim()).filter(s => s)],
    the expression used by RegisterForm.handleSubmit and by
    ProfileModal.handleSubmit. *)
Definition parseSkills (input : JS.str) : list JS.str :=
  filter JS.truthy (map JS.trim (JS.split JS.comma input)).

(** [skills?.join(', ') || ''], the display string of ProfileModal. *)
Definition showSkills (skills : list JS.str) : JS.str :=
  JS.or_else (JS.join (JS.lit ", ") skills) (JS.lit "").


(** ** Data model *)

(** A User record as the backend returns it (the fields App.js reads).
    Optional fields are [None] when null or absent. *)
Module User.
Record t := {
  id : JS.str;
  name : JS.str;
  email : JS.str;
  location : option JS.str;
  bio : option JS.str;
  availability : option JS.str;
  skills_offered : list JS.str;
  skills_wanted : list JS.str;
  is_public : option bool;
  role : JS.str }.
End User.

(** The five status values of the data model and their wire strings. *)
Inductive Status := pending | accepted | rejected | completed | cancelled.

Definition status_string (s : Status) : JS.str :=
  match s with
  | pending => JS.lit "pending"
  | accepted => JS.lit "accepted"
  | rejected => JS.lit "rejected"
  | completed => JS.lit "completed"
  | cancelled => JS.lit "cancelled"
  end.

Module SwapRequest.
Record t := {
  id : JS.str;
  requester_id : JS.str;
  target_user_id : JS.str;
  requested_skill : JS.str;
  offered_skill : JS.str;
  message : option JS.str;
  status : JS.str;
  created_at : JS.str }.
End SwapRequest.

(** The [formData] of RegisterForm and the [userData] it transmits. *)
Module RegisterForm.
Record formData := {
  name : JS.str;
  email : JS.str;
  password : JS.str;
  location : JS.str;
  bio : JS.str;
  skills_offered : JS.str;
  skills_wanted : JS.str;
  availability : JS.str;
  is_public : bool }.

Record userData := {
  u_name : JS.str;
  u_email : JS.str;
  u_password : JS.str;
  u_location : JS.str;
  u_bio : JS.str;
  u_skills_offered : list JS.str;
  u_skills_wanted : list JS.str;
  u_availability : JS.str;
  u_is_public : bool }.

Record state := { form : formData; loading : bool }.
End RegisterForm.

(** The [formData] of ProfileModal and the [updateData] it transmits. *)
Module ProfileModal.
Record formData := {
  name : JS.str;
  location : JS.str;
  bio : JS.str;
  skills_offered : JS.str;
  skills_wanted : JS.str;
  availability : JS.str;
  is_public : bool }.

Record updateData := {
  u_name : JS.str;
  u_location : JS.str;
  u_bio : JS.str;
  u_skills_offered : list JS.str;
  u_skills_wanted : list JS.str;
  u_availability : JS.str;
  u_is_public : bool }.

Record state := { form : formData; saving : bool }.
End ProfileModal.

Module LoginForm.
Record state := { email : JS.str; password : JS.str; loading : bool }.
End LoginForm.

(** ** The REST surface

    Every axios call of App.js, with the bearer token its headers carry
    ([None] is the interpolation of a null token). *)
Inductive Request :=
| POST_auth_login (email password : JS.str)
| POST_auth_register (userData : RegisterForm.userData)
| GET_auth_me (bearer : option JS.str)
| GET_users (bearer : option JS.str)
| GET_users_search (term : JS.str) (bearer : option JS.str)
| PUT_users_me (updateData : ProfileModal.updateData) (bearer : option JS.str)
| GET_swap_requests_my_requests (bearer : option JS.str)
| GET_swap_requests_incoming (bearer : option JS.str)
| POST_swap_requests (target_user_id requested_skill offered_skill : JS.str)
                     (bearer : option JS.str)
| PUT_swap_requests (requestId status : JS.str) (bearer : option JS.str)
| DELETE_swap_requests (requestId : JS.str) (bearer : option JS.str).

(** What [response.data] holds for each call; login and registration
    answer with the [access_token]. *)
Definition reply_type (r : Request) : Type :=
  match r with
  | POST_auth_login _ _ | POST_auth_register _ => JS.str
  | GET_auth_me _ | PUT_users_me _ _ => User.t
  | GET_users _ | GET_users_search _ _ => list User.t
  | GET_swap_requests_my_requests _ | GET_swap_requests_incoming _ =>
      list SwapRequest.t
  | POST_swap_requests _ _ _ _ | PUT_swap_requests _ _ _ => SwapRequest.t
  | DELETE_swap_requests _ _ => unit
  end.

(** Why a call failed.  axios rejects the promise in each case and the
    client never looks at the reason. *)
Inductive Failure := ValidationError | AuthorizationError | NetworkError.

Inductive Response (A : Type) :=
| Ok (data : A)
| Rejected (error : Failure).
Arguments Rejected {A} error.

(** The remote service and the network: an answer to each request, which
    may depend on every request sent before it. *)
Definition Backend := list Request -> forall r : Request, Response (reply_type r).

(** ** Observable effects and the client state *)

Inductive Event :=
| Sent (r : Request)
| Alert (message : JS.str)
| ConsoleError (message : JS.str) (error : Failure)
| Prompt (question : JS.str) (answer : option JS.str).

Inductive Tab := browse | my_requests | incoming | admin.

Module AuthProvider.
Record state := { user : option User.t; token : option JS.str }.
End AuthProvider.

Module Dashboard.
Record state := {
  activeTab : Tab;
  users : list User.t;
  myRequests : list SwapRequest.t;
  incomingRequests : list SwapRequest.t;
  searchTerm : JS.str;
  loading : bool;
  showProfileModal : bool }.
End Dashboard.

Record World := {
  trace : list Event;                      (* oldest first *)
  localStorage_token : option JS.str;      (* localStorage 'token' *)
  auth : AuthProvider.state;
  dashboard : Dashboard.state;
  loginForm : LoginForm.state;
  registerForm : RegisterForm.state;
  profileModal : ProfileModal.state }.

Definition sent (tr : list Event) : list Request :=
  flat_map (fun e => match e with Sent r => [r] | _ => [] end) tr.

Definition alerts (tr : list Event) : list JS.str :=
  flat_map (fun e => match e with Alert m => [m] | _ => [] end) tr.

(** ** Effects: state passing with exceptions

    A computation runs on a world and either returns or throws; the state
    changes made before a throw stay, as in JavaScript. *)
Inductive Outcome (A : Type) :=
| Returned (a : A)
| Threw (error : Failure).
Arguments Threw {A} error.

Definition Eff (A : Type) : Type := World -> Outcome A * World.

Definition ret {A} (a : A) : Eff A := fun w => (Returned a, w).

Definition bind {A B} (m : Eff A) (k : A -> Eff B) : Eff B :=
  fun w =>
    match m w with
    | (Returned a, w') => k a w'
    | (Threw e, w') => (Threw e, w')
    end.

(** [try { body } catch (error) { handler }] *)
Definition try_catch {A} (body : Eff A) (handler : Failure -> Eff A) : Eff A :=
  fun w =>
    match body w with
    | (Returned a, w') => (Returned a, w')
    | (Threw e, w') => handler e w'
    end.

Declare Scope eff_scope.
Delimit Scope eff_scope with eff.
Notation "x <- c1 ;; c2" := (bind c1 (fun x => c2))
  (at level 61, c1 at next level, right associativity) : eff_scope.
Notation "c1 ;; c2" := (bind c1 (fun _ => c2))
  (at level 61, right associativity) : eff_scope.
Local Open Scope eff_scope.

Definition get : Eff World := fun w => (Returned w, w).

Definition modify (f : World -> World) : Eff unit := fun w => (Returned tt, f w).

Definition exec {A} (m : Eff A) (w : World) : World := snd (m w).
Definition result {A} (m : Eff A) (w : World) : Outcome A := fst (m w).

(** *** Field updates *)

Definition emit (e : Event) (w : World) : World :=
  {| trace := trace w ++ [e];
     localStorage_token := localStorage_token w;
     auth := auth w; dashboard := dashboard w; loginForm := loginForm w;
     registerForm := registerForm w; profileModal := profileModal w |}.

Definition with_storage (v : option JS.str) (w : World) : World :=
  {| trace := trace w;
     localStorage_token := v;
     auth := auth w; dashboard := dashboard w; loginForm := loginForm w;
     registerForm := registerForm w; profileModal := profileModal w |}.

Definition with_auth (f : AuthProvider.state -> AuthProvider.state) (w : World) : World :=
  {| trace := trace w;
     localStorage_token := localStorage_token w;
     auth := f (auth w); dashboard := dashboard w; loginForm := loginForm w;
     registerForm := registerForm w; profileModal := profileModal w |}.

Definition with_dashboard (f : Dashboard.state -> Dashboard.state) (w : World) : World :=
  {| trace := trace w;
     localStorage_token := localStorage_token w;
     auth := auth w; dashboard := f (dashboard w); loginForm := loginForm w;
     registerForm := registerForm w; profileModal := profileModal w |}.

Definition with_loginForm (f : LoginForm.state -> LoginForm.state) (w : World) : World :=
  {| trace := trace w;
     localStorage_token := localStorage_token w;
     auth := auth w; dashboard := dashboard w; loginForm := f (loginForm w);
     registerForm := registerForm w; profileModal := profileModal w |}.

Definition with_registerForm (f : RegisterForm.state -> RegisterForm.state) (w : World) : World :=
  {| trace := trace w;
     localStorage_token := localStorage_token w;
     auth := auth w; dashboard := dashboard w; loginForm := loginForm w;
     registerForm := f (registerForm w); profileModal := profileModal w |}.

Definition with_profileModal (f : ProfileModal.state -> ProfileModal.state) (w : World) : World :=
  {| trace := trace w;
     localStorage_token := localStorage_token w;
     auth := auth w; dashboard := dashboard w; loginForm := loginForm w;
     registerForm := registerForm w; profileModal := f (profileModal w) |}.

(** *** Browser primitives *)

Definition alert (message : string) : Eff unit :=
  modify (emit (Alert (JS.lit message))).

Definition console_error (message : string) (error : Failure) : Eff unit :=
  modify (emit (ConsoleError (JS.lit message) error)).

(** [prompt(question)]: the dialog is shown and the user's [answer]
    ([None] when dismissed) comes back. *)
Definition prompt (question : string) (answer : option JS.str) : Eff (option JS.str) :=
  modify (emit (Prompt (JS.lit question) answer)) ;; ret answer.

Definition localStorage_getItem : Eff (option JS.str) :=
  fun w => (Returned (localStorage_token w), w).

Definition localStorage_setItem (v : JS.str) : Eff unit :=
  modify (with_storage (Some v)).

Definition localStorage_removeItem : Eff unit :=
  modify (with_storage None).

(** ToBoolean of a value that is a string or null. *)
Definition truthy_opt (v : option JS.str) : bool :=
  match v with Some s => JS.truthy s | None => false end.

(** ** The components *)

Section Client.

Variable backend : Backend.

(** An awaited axios call: the request goes out, and the promise resolves
    with [response.data] or rejects. *)
Definition axios (r : Request) : Eff (reply_type r) :=
  fun w =>
    match backend (sent (trace w)) r with
    | Ok data => (Returned data, emit (Sent r) w)
    | Rejected error => (Threw error, emit (Sent r) w)
    end.

(** *** AuthProvider *)

Definition setUser (v : option User.t) : Eff unit :=
  modify (with_auth (fun s =>
    {| AuthProvider.user := v; AuthProvider.token := AuthProvider.token s |})).

Definition setToken (v : option JS.str) : Eff unit :=
  modify (with_auth (fun s =>
    {| AuthProvider.user := AuthProvider.user s; AuthProvider.token := v |})).

Definition logout : Eff unit :=
  setToken None ;;
  setUser None ;;
  localStorage_removeItem.

Definition fetchUser : Eff unit :=
  try_catch
    (w <- get ;;
     response <- axios (GET_auth_me (AuthProvider.token (auth w))) ;;
     setUser (Some response))
    (fun error =>
       console_error "Failed to fetch user:" error ;;
       logout).

Definition login (email password : JS.str) : Eff bool :=
  try_catch
    (access_token <- axios (POST_auth_login email password) ;;
     setToken (Some access_token) ;;
     localStorage_setItem access_token ;;
     ret true)
    (fun error =>
       console_error "Login failed:" error ;;
       ret false).

Definition register (userData : RegisterForm.userData) : Eff bool :=
  try_catch
    (access_token <- axios (POST_auth_register userData) ;;
     setToken (Some access_token) ;;
     localStorage_setItem access_token ;;
     ret true)
    (fun error =>
       console_error "Registration failed:" error ;;
       ret false).

(** [useEffect(() => { if (token) fetchUser(); }, [token])] *)
Definition AuthProvider_useEffect : Eff unit :=
  w <- get ;;
  if truthy_opt (AuthProvider.token (auth w)) then fetchUser else ret tt.

(** First mount: [useState(null)], [useState(localStorage.getItem('token'))],
    then the effect. *)
Definition AuthProvider_mount : Eff unit :=
  stored <- localStorage_getItem ;;
  modify (with_auth (fun _ =>
    {| AuthProvider.user := None; AuthProvider.token := stored |})) ;;
  AuthProvider_useEffect.

(** *** LoginForm *)

Definition LoginForm_setLoading (v : bool) : Eff unit :=
  modify (with_loginForm (fun s =>
    {| LoginForm.email := LoginForm.email s;
       LoginForm.password := LoginForm.password s;
       LoginForm.loading := v |})).

Definition LoginForm_handleSubmit : Eff unit :=
  LoginForm_setLoading true ;;
  w <- get ;;
  success <- login (LoginForm.email (loginForm w)) (LoginForm.password (loginForm w)) ;;
  (if negb success
   then alert "Login failed. Please check your credentials."
   else ret tt) ;;
  LoginForm_setLoading false.

(** *** RegisterForm *)

Definition RegisterForm_setLoading (v : bool) : Eff unit :=
  modify (with_registerForm (fun s =>
    {| RegisterForm.form := RegisterForm.form s; RegisterForm.loading := v |})).

(** [{...formData, skills_offered: ..., skills_wanted: ...}] *)
Definition RegisterForm_userData (formData : RegisterForm.formData) : RegisterForm.userData :=
  {| RegisterForm.u_name := RegisterForm.name formData;
     RegisterForm.u_email := RegisterForm.email formData;
     RegisterForm.u_password := RegisterForm.password formData;
     RegisterForm.u_location := RegisterForm.location formData;
     RegisterForm.u_bio := RegisterForm.bio formData;
     RegisterForm.u_skills_offered := parseSkills (RegisterForm.skills_offered formData);
     RegisterForm.u_skills_wanted := parseSkills (RegisterForm.skills_wanted formData);
     RegisterForm.u_availability := RegisterForm.availability formData;
     RegisterForm.u_is_public := RegisterForm.is_public formData |}.

Definition RegisterForm_handleSubmit : Eff unit :=
  RegisterForm_setLoading true ;;
  w <- get ;;
  let userData := RegisterForm_userData (RegisterForm.form (registerForm w)) in
  success <- register userData ;;
  (if negb success
   then alert "Registration failed. Please try again."
   else ret tt) ;;
  RegisterForm_setLoading false.

(** *** Dashboard *)

Definition setActiveTab (v : Tab) : Eff unit :=
  modify (with_dashboard (fun s =>
    {| Dashboard.activeTab := v;
       Dashboard.users := Dashboard.users s;
       Dashboard.myRequests := Dashboard.myRequests s;
       Dashboard.incomingRequests := Dashboard.incomingRequests s;
       Dashboard.searchTerm := Dashboard.searchTerm s;
       Dashboard.loading := Dashboard.loading s;
       Dashboard.showProfileModal := Dashboard.showProfileModal s |})).

Definition setUsers (v : list User.t) : Eff unit :=
  modify (with_dashboard (fun s =>
    {| Dashboard.activeTab := Dashboard.activeTab s;
       Dashboard.users := v;
       Dashboard.myRequests := Dashboard.myRequests s;
       Dashboard.incomingRequests := Dashboard.incomingRequests s;
       Dashboard.searchTerm := Dashboard.searchTerm s;
       Dashboard.loading := Dashboard.loading s;
       Dashboard.showProfileModal := Dashboard.showProfileModal s |})).

Definition setMyRequests (v : list SwapRequest.t) : Eff unit :=
  modify (with_dashboard (fun s =>
    {| Dashboard.activeTab := Dashboard.activeTab s;
       Dashboard.users := Dashboard.users s;
       Dashboard.myRequests := v;
       Dashboard.incomingRequests := Dashboard.incomingRequests s;
       Dashboard.searchTerm := Dashboard.searchTerm s;
       Dashboard.loading := Dashboard.loading s;
       Dashboard.showProfileModal := Dashboard.showProfileModal s |})).

Definition setIncomingRequests (v : list SwapRequest.t) : Eff unit :=
  modify (with_dashboard (fun s =>
    {| Dashboard.activeTab := Dashboard.activeTab s;
       Dashboard.users := Dashboard.users s;
       Dashboard.myRequests := Dashboard.myRequests s;
       Dashboard.incomingRequests := v;
       Dashboard.searchTerm := Dashboard.searchTerm s;
       Dashboard.loading := Dashboard.loading s;
       Dashboard.showProfileModal := Dashboard.showProfileModal s |})).

Definition setSearchTerm (v : JS.str) : Eff unit :=
  modify (with_dashboard (fun s =>
    {| Dashboard.activeTab := Dashboard.activeTab s;
       Dashboard.users := Dashboard.users s;
       Dashboard.myRequests := Dashboard.myRequests s;
       Dashboard.incomingRequests := Dashboard.incomingRequests s;
       Dashboard.searchTerm := v;
       Dashboard.loading := Dashboard.loading s;
       Dashboard.showProfileModal := Dashboard.showProfileModal s |})).

Definition setLoading (v : bool) : Eff unit :=
  modify (with_dashboard (fun s =>
    {| Dashboard.activeTab := Dashboard.activeTab s;
       Dashboard.users := Dashboard.users s;
       Dashboard.myRequests := Dashboard.myRequests s;
       Dashboard.incomingRequests := Dashboard.incomingRequests s;
       Dashboard.searchTerm := Dashboard.searchTerm s;
       Dashboard.loading := v;
       Dashboard.showProfileModal := Dashboard.showProfileModal s |})).

Definition setShowProfileModal (v : bool) : Eff unit :=
  modify (with_dashboard (fun s =>
    {| Dashboard.activeTab := Dashboard.activeTab s;
       Dashboard.users := Dashboard.users s;
       Dashboard.myRequests := Dashboard.myRequests s;
       Dashboard.incomingRequests := Dashboard.incomingRequests s;
       Dashboard.searchTerm := Dashboard.searchTerm s;
       Dashboard.loading := Dashboard.loading s;
       Dashboard.showProfileModal := v |})).

(** [{ headers: { Authorization: `Bearer ${localStorage.getItem('token')}` } }]
    The component builds this object at each render; here storage is read
    when the operation runs, which is the same token as long as storage has
    not changed since the last render. *)
Definition authHeaders : Eff (option JS.str) := localStorage_getItem.

Definition fetchUsers : Eff unit :=
  setLoading true ;;
  try_catch
    (bearer <- authHeaders ;;
     response <- axios (GET_users bearer) ;;
     setUsers response)
    (fun error => console_error "Failed to fetch users:" error) ;;
  setLoading false.

Definition fetchMyRequests : Eff unit :=
  setLoading true ;;
  try_catch
    (bearer <- authHeaders ;;
     response <- axios (GET_swap_requests_my_requests bearer) ;;
     setMyRequests response)
    (fun error => console_error "Failed to fetch requests:" error) ;;
  setLoading false.

Definition fetchIncomingRequests : Eff unit :=
  setLoading true ;;
  try_catch
    (bearer <- authHeaders ;;
     response <- axios (GET_swap_requests_incoming bearer) ;;
     setIncomingRequests response)
    (fun error => console_error "Failed to fetch incoming requests:" error) ;;
  setLoading false.

(** [useEffect(..., [activeTab])]: each activation of a tab fetches. *)
Definition Dashboard_useEffect : Eff unit :=
  w <- get ;;
  match Dashboard.activeTab (dashboard w) with
  | browse => fetchUsers
  | my_requests => fetchMyRequests
  | incoming => fetchIncomingRequests
  | admin => ret tt
  end.

Definition searchBySkill : Eff unit :=
  w <- get ;;
  let searchTerm := Dashboard.searchTerm (dashboard w) in
  if negb (JS.truthy (JS.trim searchTerm)) then ret tt
  else
    setLoading true ;;
    try_catch
      (bearer <- authHeaders ;;
       response <- axios (GET_users_search searchTerm bearer) ;;
       setUsers response)
      (fun error => console_error "Search failed:" error) ;;
    setLoading false.

Definition createSwapRequest (targetUserId requestedSkill offeredSkill : JS.str) : Eff unit :=
  try_catch
    (bearer <- authHeaders ;;
     axios (POST_swap_requests targetUserId requestedSkill offeredSkill bearer) ;;
     alert "Swap request sent successfully!")
    (fun error =>
       console_error "Failed to create swap request:" error ;;
       alert "Failed to send swap request").

(** The list fetch is started without [await]; it handles its own failure,
    so nothing it does reaches the [catch] of the caller. *)
Definition updateSwapRequest (requestId status : JS.str) : Eff unit :=
  try_catch
    (bearer <- authHeaders ;;
     axios (PUT_swap_requests requestId status bearer) ;;
     w <- get ;;
     match Dashboard.activeTab (dashboard w) with
     | incoming => fetchIncomingRequests
     | _ => fetchMyRequests
     end)
    (fun error => console_error "Failed to update swap request:" error).

Definition deleteSwapRequest (requestId : JS.str) : Eff unit :=
  try_catch
    (bearer <- authHeaders ;;
     axios (DELETE_swap_requests requestId bearer) ;;
     fetchMyRequests)
    (fun error => console_error "Failed to delete swap request:" error).

(** The click handler of UserCard's button; the two answers are what the
    user types into (or [None]: dismisses) the two prompts. *)
Definition UserCard_onClick (targetUser : User.t)
    (answer1 answer2 : option JS.str) : Eff unit :=
  requestedSkill <- prompt "Which skill do you want to learn from them?" answer1 ;;
  offeredSkill <- prompt "Which skill will you offer in return?" answer2 ;;
  match requestedSkill, offeredSkill with
  | Some r, Some o =>
      if JS.truthy r && JS.truthy o
      then createSwapRequest (User.id targetUser) r o
      else ret tt
  | _, _ => ret tt
  end.

(** *** SwapRequestCard *)

(** What a button of the card calls when clicked. *)
Inductive Click :=
| call_updateSwapRequest (requestId status : JS.str)
| call_deleteSwapRequest (requestId : JS.str).

Record Button := { label : JS.str; onClick : Click }.

Definition click (c : Click) : Eff unit :=
  match c with
  | call_updateSwapRequest requestId status => updateSwapRequest requestId status
  | call_deleteSwapRequest requestId => deleteSwapRequest requestId
  end.

(** The action row of the card; [type] is the string prop, 'outgoing' in
    the My Requests list and 'incoming' in the Incoming Requests list. *)
Definition SwapRequestCard (request : SwapRequest.t) (type : JS.str) : list Button :=
  (if JS.eqb type (JS.lit "incoming")
      && JS.eqb (SwapRequest.status request) (JS.lit "pending")
   then [ {| label := JS.lit "Accept";
             onClick := call_updateSwapRequest (SwapRequest.id request) (JS.lit "accepted") |};
          {| label := JS.lit "Reject";
             onClick := call_updateSwapRequest (SwapRequest.id request) (JS.lit "rejected") |} ]
   else [])
  ++
  (if JS.eqb type (JS.lit "outgoing")
      && JS.eqb (SwapRequest.status request) (JS.lit "pending")
   then [ {| label := JS.lit "Cancel Request";
             onClick := call_deleteSwapRequest (SwapRequest.id request) |} ]
   else [])
  ++
  (if JS.eqb (SwapRequest.status request) (JS.lit "accepted")
   then [ {| label := JS.lit "Mark as Completed";
             onClick := call_updateSwapRequest (SwapRequest.id request) (JS.lit "completed") |} ]
   else []).

(** *** The main panel of the Dashboard *)

(** [u.id !== user?.id]; with no session user the right side is undefined,
    which no id equals. *)
Definition not_self (user : option User.t) (u : User.t) : bool :=
  match user with
  | Some me => negb (JS.eqb (User.id u) (User.id me))
  | None => true
  end.

Inductive Panel :=
| LoadingPanel
| UserCards (cards : list User.t)
| RequestCards (cards : list (SwapRequest.t * list Button))
| AdminPanel
| NoPanel.

Definition Dashboard_render (w : World) : Panel :=
  let d := dashboard w in
  let user := AuthProvider.user (auth w) in
  match Dashboard.activeTab d with
  | browse =>
      if Dashboard.loading d then LoadingPanel
      else UserCards (filter (not_self user) (Dashboard.users d))
  | my_requests =>
      if Dashboard.loading d then LoadingPanel
      else RequestCards
             (map (fun request => (request, SwapRequestCard request (JS.lit "outgoing")))
                  (Dashboard.myRequests d))
  | incoming =>
      if Dashboard.loading d then LoadingPanel
      else RequestCards
             (map (fun request => (request, SwapRequestCard request (JS.lit "incoming")))
                  (Dashboard.incomingRequests d))
  | admin =>
      match user with
      | Some me => if JS.eqb (User.role me) (JS.lit "admin") then AdminPanel else NoPanel
      | None => NoPanel
      end
  end.

(** *** ProfileModal *)

Definition ProfileModal_setFormData (v : ProfileModal.formData) : Eff unit :=
  modify (with_profileModal (fun s =>
    {| ProfileModal.form := v; ProfileModal.saving := ProfileModal.saving s |})).

Definition ProfileModal_setSaving (v : bool) : Eff unit :=
  modify (with_profileModal (fun s =>
    {| ProfileModal.form := ProfileModal.form s; ProfileModal.saving := v |})).

(** [field || ''] on a field that may be null. *)
Definition or_empty (v : option JS.str) : JS.str :=
  match v with
  | Some s => JS.or_else s (JS.lit "")
  | None => JS.lit ""
  end.

(** The form snapshot the effect on [user] installs. *)
Definition ProfileModal_formOf (user : User.t) : ProfileModal.formData :=
  {| ProfileModal.name := JS.or_else (User.name user) (JS.lit "");
     ProfileModal.location := or_empty (User.location user);
     ProfileModal.bio := or_empty (User.bio user);
     ProfileModal.skills_offered := showSkills (User.skills_offered user);
     ProfileModal.skills_wanted := showSkills (User.skills_wanted user);
     ProfileModal.availability := or_empty (User.availability user);
     ProfileModal.is_public :=
       match User.is_public user with Some b => b | None => true end |}.

(** [useEffect(() => { if (user) setFormData({...}); }, [user])] *)
Definition ProfileModal_useEffect : Eff unit :=
  w <- get ;;
  match AuthProvider.user (auth w) with
  | Some user => ProfileModal_setFormData (ProfileModal_formOf user)
  | None => ret tt
  end.

Definition ProfileModal_updateData (formData : ProfileModal.formData) : ProfileModal.updateData :=
  {| ProfileModal.u_name := ProfileModal.name formData;
     ProfileModal.u_location := ProfileModal.location formData;
     ProfileModal.u_bio := ProfileModal.bio formData;
     ProfileModal.u_skills_offered := parseSkills (ProfileModal.skills_offered formData);
     ProfileModal.u_skills_wanted := parseSkills (ProfileModal.skills_wanted formData);
     ProfileModal.u_availability := ProfileModal.availability formData;
     ProfileModal.u_is_public := ProfileModal.is_public formData |}.

Definition ProfileModal_handleSubmit : Eff unit :=
  ProfileModal_setSaving true ;;
  try_catch
    (w <- get ;;
     let updateData := ProfileModal_updateData (ProfileModal.form (profileModal w)) in
     bearer <- authHeaders ;;
     axios (PUT_users_me updateData bearer) ;;
     fetchUser ;;
     alert "Profile updated successfully!" ;;
     setShowProfileModal false)
    (fun error =>
       console_error "Failed to update profile:" error ;;
       alert "Failed to update profile. Please try again.") ;;
  ProfileModal_setSaving false.

End Client.

(** ** The transition table of the lifecycle, as the specification words it *)

Inductive Actor := requester | target_user.

Inductive TableActor := by_requester | by_target_user | by_either_party.

Inductive Trigger := accept | reject | cancel | mark_complete.

Record Row := {
  row_from : Status;
  row_to : Status;
  row_actor : TableActor;
  row_trigger : Trigger }.

(** The rows of the table that start from an existing request. *)
Definition transition_table : list Row :=
  [ {| row_from := pending;  row_to := accepted;  row_actor := by_target_user;  row_trigger := accept |};
    {| row_from := pending;  row_to := rejected;  row_actor := by_target_user;  row_trigger := reject |};
    {| row_from := pending;  row_to := cancelled; row_actor := by_requester;    row_trigger := cancel |};
    {| row_from := accepted; row_to := completed; row_actor := by_either_party; row_trigger := mark_complete |} ].

Definition Status_eqb (a b : Status) : bool :=
  match a, b with
  | pending, pending | accepted, accepted | rejected, rejected
  | completed, completed | cancelled, cancelled => true
  | _, _ => false
  end.

Definition permits (t : TableActor) (a : Actor) : bool :=
  match t, a with
  | by_either_party, _ => true
  | by_requester, requester => true
  | by_target_user, target_user => true
  | _, _ => false
  end.

Definition table_rows (from : Status) (a : Actor) : list Row :=
  filter (fun row => Status_eqb (row_from row) from && permits (row_actor row) a)
         transition_table.

Definition terminal (s : Status) : bool :=
  match s with
  | rejected | completed | cancelled => true
  | pending | accepted => false
  end.

(** The list an actor sees a request in: the requester in 'outgoing', the
    target user in 'incoming'. *)
Definition card_type (a : Actor) : JS.str :=
  match a with
  | requester => JS.lit "outgoing"
  | target_user => JS.lit "incoming"
  end.

(** The call that carries out a row of the table: a cancellation deletes
    the record, every other transition writes the new status. *)
Definition row_call (requestId : JS.str) (row : Row) : Click :=
  match row_trigger row with
  | cancel => call_deleteSwapRequest requestId
  | accept | reject | mark_complete =>
      call_updateSwapRequest requestId (status_string (row_to row))
  end.

(** ** The skill-list law, as the specification words it *)

(** [pieces] is the input cut at its commas. *)
Definition cut_at_commas (input : JS.str) (pieces : list JS.str) : Prop :=
  pieces <> []
  /\ Forall (fun p => ~ In JS.comma p) pieces
  /\ JS.join [JS.comma] pieces = input.

(** [t] is [p] without its surrounding white space. *)
Definition stripped (p t : JS.str) : Prop :=
  exists l r,
    p = l ++ t ++ r
    /\ forallb JS.isWhiteSpace l = true
    /\ forallb JS.isWhiteSpace r = true
    /\ JS.starts_clean t /\ JS.ends_clean t.

(** [skills] is the input split on commas, each piece trimmed, the empty
    ones dropped, in order. *)
Definition skill_list_of (input : JS.str) (skills : list JS.str) : Prop :=
  exists pieces trimmed,
    cut_at_commas input pieces
    /\ Forall2 stripped pieces trimmed
    /\ skills = filter (fun t => negb (JS.eqb t [])) trimmed.

(** A label that survives the encoding as it is. *)
Definition clean_label (l : JS.str) : Prop :=
  l <> [] /\ JS.trim l = l /\ ~ In JS.comma l.

(** The session is gone: no user, no token in memory, no token in storage. *)
Definition session_cleared (w : World) : Prop :=
  AuthProvider.user (auth w) = None
  /\ AuthProvider.token (auth w) = None
  /\ localStorage_token w = None.

(** A request that fetches one of the two request lists. *)
Definition is_list_fetch (r : Request) : bool :=
  match r with
  | GET_swap_requests_my_requests _ | GET_swap_requests_incoming _ => true
  | _ => false
  end.

(** The requests a computation sends when run on [w], in order. *)
Definition requests_added {A} (m : Eff A) (w : World) : list Request :=
  skipn (List.length (sent (trace w))) (sent (trace (exec m w))).

(** Nothing but the trace differs between two worlds: storage, session
    and every component state are the same. *)
Definition same_state (w w' : World) : Prop :=
  localStorage_token w' = localStorage_token w
  /\ auth w' = auth w
  /\ dashboard w' = dashboard w
  /\ loginForm w' = loginForm w
  /\ registerForm w' = registerForm w
  /\ profileModal w' = profileModal w.

(** ** The top-level screen and further vocabulary *)

(** [{user && token ? <Dashboard /> : <AuthScreen />}] of App. *)
Inductive Screen := DashboardScreen | AuthScreen.

Definition App_render (w : World) : Screen :=
  match AuthProvider.user (auth w) with
  | Some _ =>
      if truthy_opt (AuthProvider.token (auth w)) then DashboardScreen else AuthScreen
  | None => AuthScreen
  end.

(** The alerts a computation shows when run on [w], in order. *)
Definition alerts_added {A} (m : Eff A) (w : World) : list JS.str :=
  skipn (List.length (alerts (trace w))) (alerts (trace (exec m w))).

(** The token in memory is the token in storage. *)
Definition token_in_sync (w : World) : Prop :=
  AuthProvider.token (auth w) = localStorage_token w.

(** A string of white space only (the empty string included). *)
Definition blank (s : JS.str) : bool := forallb JS.isWhiteSpace s.

(** The calls the context of AuthProvider offers, and its token effect. *)
Inductive AuthCall :=
| do_login (email password : JS.str)
| do_register (userData : RegisterForm.userData)
| do_logout
| do_fetchUser
| do_useEffect.

Definition auth_call (backend : Backend) (c : AuthCall) : Eff unit :=
  match c with
  | do_login email password => _ <- login backend email password ;; ret tt
  | do_register userData => _ <- register backend userData ;; ret tt
  | do_logout => logout
  | do_fetchUser => fetchUser backend
  | do_useEffect => AuthProvider_useEffect backend
  end.

Fixpoint auth_calls (backend : Backend) (cs : list AuthCall) : Eff unit :=
  match cs with
  | [] => ret tt
  | c :: cs' => auth_call backend c ;; auth_calls backend cs'
  end.

(** The operations of the Dashboard that talk to the server. *)
Inductive DashboardCall :=
| do_fetchUsers
| do_fetchMyRequests
| do_fetchIncomingRequests
| do_searchBySkill
| do_createSwapRequest (targetUserId requestedSkill offeredSkill : JS.str)
| do_updateSwapRequest (requestId status : JS.str)
| do_deleteSwapRequest (requestId : JS.str).

Definition dashboard_call (backend : Backend) (c : DashboardCall) : Eff unit :=
  match c with
  | do_fetchUsers => fetchUsers backend
  | do_fetchMyRequests => fetchMyRequests backend
  | do_fetchIncomingRequests => fetchIncomingRequests backend
  | do_searchBySkill => searchBySkill backend
  | do_createSwapRequest t r o => createSwapRequest backend t r o
  | do_updateSwapRequest i st => updateSwapRequest backend i st
  | do_deleteSwapRequest i => deleteSwapRequest backend i
  end.

(** The list fetch a tab starts when it becomes active. *)
Definition tab_fetch (t : Tab) (bearer : option JS.str) : list Request :=
  match t with
  | browse => [GET_users bearer]
  | my_requests => [GET_swap_requests_my_requests bearer]
  | incoming => [GET_swap_requests_incoming bearer]
  | admin => []
  end.

(** ** Sample data *)
Module Sample.

Definition alice : User.t :=
  {| User.id := JS.lit "u-alice"; User.name := JS.lit "Alice";
     User.email := JS.lit "alice@example.org";
     User.location := None; User.bio := None; User.availability := None;
     User.skills_offered := [JS.lit "Guitar"; JS.lit "Cooking"];
     User.skills_wanted := [JS.lit "Spanish"];
     User.is_public := Some true; User.role := JS.lit "user" |}.

Definition bob : User.t :=
  {| User.id := JS.lit "u-bob"; User.name := JS.lit "Bob";
     User.email := JS.lit "bob@example.org";
     User.location := Some (JS.lit "Lyon"); User.bio := None;
     User.availability := Some (JS.lit "weekends");
     User.skills_offered := [JS.lit "Spanish"];
     User.skills_wanted := [JS.lit "Guitar"];
     User.is_public := Some true; User.role := JS.lit "user" |}.

(** Bob asks Alice for Guitar and offers Spanish. *)
Definition request (status : JS.str) : SwapRequest.t :=
  {| SwapRequest.id := JS.lit "r-1";
     SwapRequest.requester_id := User.id bob;
     SwapRequest.target_user_id := User.id alice;
     SwapRequest.requested_skill := JS.lit "Guitar";
     SwapRequest.offered_skill := JS.lit "Spanish";
     SwapRequest.message := None;
     SwapRequest.status := status;
     SwapRequest.created_at := JS.lit "2025-07-12T10:00:00" |}.

(** A service that accepts every call. *)
Definition backend_ok : Backend :=
  fun _ r =>
    match r return Response (reply_type r) with
    | POST_auth_login _ _ | POST_auth_register _ => Ok (JS.lit "token-1")
    | GET_auth_me _ | PUT_users_me _ _ => Ok bob
    | GET_users _ | GET_users_search _ _ => Ok [alice; bob]
    | GET_swap_requests_my_requests _ => Ok [request (JS.lit "accepted")]
    | GET_swap_requests_incoming _ => Ok []
    | POST_swap_requests _ _ _ _ => Ok (request (JS.lit "pending"))
    | PUT_swap_requests _ status _ => Ok (request status)
    | DELETE_swap_requests _ _ => Ok tt
    end.

(** The network is down: every call is rejected. *)
Definition backend_offline : Backend :=
  fun _ r => Rejected NetworkError.

(** A service that refuses every call as unauthorized. *)
Definition backend_forbidden : Backend :=
  fun _ r => Rejected AuthorizationError.

(** Bob is logged in and looks at his outgoing requests. *)
Definition world : World :=
  {| trace := [];
     localStorage_token := Some (JS.lit "token-0");
     auth := {| AuthProvider.user := Some bob;
                AuthProvider.token := Some (JS.lit "token-0") |};
     dashboard :=
       {| Dashboard.activeTab := my_requests;
          Dashboard.users := [alice; bob];
          Dashboard.myRequests := [request (JS.lit "pending")];
          Dashboard.incomingRequests := [];
          Dashboard.searchTerm := [];
          Dashboard.loading := false;
          Dashboard.showProfileModal := false |};
     loginForm :=
       {| LoginForm.email := JS.lit "bob@example.org";
          LoginForm.password := JS.lit "hunter2";
          LoginForm.loading := false |};
     registerForm :=
       {| RegisterForm.form :=
            {| RegisterForm.name := JS.lit "Bob";
               RegisterForm.email := JS.lit "bob@example.org";
               RegisterForm.password := JS.lit "hunter2";
               RegisterForm.location := [];
               RegisterForm.bio := [];
               RegisterForm.skills_offered := JS.lit "a, b ,c,";
               RegisterForm.skills_wanted := JS.lit "Guitar, Cooking";
               RegisterForm.availability := [];
               RegisterForm.is_public := true |};
          RegisterForm.loading := false |};
     profileModal :=
       {| ProfileModal.form :=
            {| ProfileModal.name := []; ProfileModal.location := [];
               ProfileModal.bio := []; ProfileModal.skills_offered := [];
               ProfileModal.skills_wanted := []; ProfileModal.availability := [];
               ProfileModal.is_public := true |};
          ProfileModal.saving := false |} |}.

(** Alice's browser: the same state with Alice as the session user. *)
Definition world_alice : World :=
  exec (setUser (Some alice)) world.

(** The same browser on the Browse tab. *)
Definition world_browsing : World :=
  exec (setActiveTab browse) world.

(** The same browser on the Incoming Requests tab. *)
Definition world_incoming : World :=
  exec (setActiveTab incoming) world.

(** A fresh browser: nothing stored, nobody logged in. *)
Definition world_fresh : World :=
  exec logout world.

(** A service that accepts the login and then fails on every other call. *)
Definition backend_login_only : Backend :=
  fun _ r =>
    match r return Response (reply_type r) with
    | POST_auth_login _ _ => Ok (JS.lit "token-2")
    | _ => Rejected NetworkError
    end.

(** A service that accepts a profile update and then fails. *)
Definition backend_put_only : Backend :=
  fun _ r =>
    match r return Response (reply_type r) with
    | PUT_users_me _ _ => Ok bob
    | _ => Rejected NetworkError
    end.

(** Bob has typed a skill into the search box. *)
Definition world_searching : World :=
  exec (setSearchTerm (JS.lit " Guitar")) world_browsing.

End Sample.

(** Unfolds the monad and the browser primitives of a handler. *)
Ltac run :=
  unfold exec, result, bind, try_catch, ret, get, modify, axios, alert,
    console_error, prompt, authHeaders, localStorage_getItem,
    localStorage_setItem, localStorage_removeItem; simpl.

(** *** Facts about the string primitives *)

Lemma eqb_eq (a b : JS.str) : JS.eqb a b = true <-> a = b.
Proof.
  revert b; induction a as [|x a IH]; intros [|y b]; simpl;
    try (split; [discriminate | discriminate]); try tauto.
  rewrite andb_true_iff, N.eqb_eq, IH.
  split; [intros [-> ->]; reflexivity | intros E; inversion E; auto].
Qed.

Lemma split_not_nil sep s : JS.split sep s <> [].
Proof.
  destruct s as [|c s]; simpl; [discriminate|].
  destruct (N.eqb c sep); [discriminate|].
  destruct (JS.split sep s); discriminate.
Qed.

(** Joining the pieces with the separator gives the input back. *)
Lemma join_split sep s : JS.join [sep] (JS.split sep s) = s.
Proof.
  induction s as [|c s IH]; simpl; [reflexivity|].
  destruct (N.eqb_spec c sep) as [->|Hne].
  - pose proof (split_not_nil sep s) as Hn.
    destruct (JS.split sep s) as [|p ps] eqn:E; [congruence|].
    simpl in *. rewrite IH. reflexivity.
  - destruct (JS.split sep s) as [|p ps] eqn:E.
    + exfalso; eapply split_not_nil; eauto.
    + simpl in *. destruct ps; simpl in *; rewrite <- IH; reflexivity.
Qed.

(** No piece contains the separator. *)
Lemma split_sep_free sep s :
  Forall (fun p => ~ In sep p) (JS.split sep s).
Proof.
  induction s as [|c s IH]; simpl.
  - constructor; [intros [] | constructor].
  - destruct (N.eqb_spec c sep) as [->|Hne].
    + constructor; [intros [] | exact IH].
    + destruct (JS.split sep s) as [|p ps].
      * constructor; [|constructor]. intros [H|[]]; congruence.
      * inversion IH as [|? ? Hp Hps]; subst.
        constructor; [|exact Hps]. intros [H|H]; [congruence | auto].
Qed.

Lemma split_sep_free_piece sep a :
  ~ In sep a -> JS.split sep a = [a].
Proof.
  induction a as [|c a IH]; simpl; intros H; [reflexivity|].
  destruct (N.eqb_spec c sep) as [->|Hne]; [exfalso; auto|].
  rewrite IH by tauto. reflexivity.
Qed.

Lemma split_app_sep sep a r :
  ~ In sep a -> JS.split sep (a ++ sep :: r) = a :: JS.split sep r.
Proof.
  induction a as [|c a IH]; simpl; intros H.
  - rewrite N.eqb_refl. reflexivity.
  - destruct (N.eqb_spec c sep) as [->|Hne]; [exfalso; auto|].
    rewrite IH by tauto. reflexivity.
Qed.

(** The pieces of [split] are the only separator-free decomposition. *)
Lemma split_join sep ps :
  ps <> [] -> Forall (fun p => ~ In sep p) ps ->
  JS.split sep (JS.join [sep] ps) = ps.
Proof.
  induction ps as [|p ps IH]; intros Hn Hf; [congruence|].
  inversion Hf as [|? ? Hp Hps]; subst.
  destruct ps as [|q ps].
  - simpl. apply split_sep_free_piece; assumption.
  - change (JS.join [sep] (p :: q :: ps))
      with (p ++ sep :: JS.join [sep] (q :: ps)).
    rewrite split_app_sep by assumption.
    rewrite IH; [reflexivity | discriminate | assumption].
Qed.

Lemma trimStart_decompose s :
  exists l, s = l ++ JS.trimStart s /\ forallb JS.isWhiteSpace l = true.
Proof.
  induction s as [|c s [l [E W]]]; simpl.
  - exists []; split; reflexivity.
  - destruct (JS.isWhiteSpace c) eqn:Hc.
    + exists (c :: l); simpl; rewrite Hc, W; split; [congruence | reflexivity].
    + exists []; split; reflexivity.
Qed.

Lemma trimStart_clean s : JS.starts_clean (JS.trimStart s).
Proof.
  induction s as [|c s IH]; simpl; [exact I|].
  destruct (JS.isWhiteSpace c) eqn:Hc; [exact IH | exact Hc].
Qed.

Lemma trimStart_id s : JS.starts_clean s -> JS.trimStart s = s.
Proof.
  destruct s as [|c s]; simpl; [reflexivity|]. intros ->; reflexivity.
Qed.

Lemma trimEnd_decompose s :
  exists r, s = JS.trimEnd s ++ r /\ forallb JS.isWhiteSpace r = true.
Proof.
  unfold JS.trimEnd.
  destruct (trimStart_decompose (rev s)) as [l [E W]].
  exists (rev l); split.
  - rewrite <- rev_app_distr, <- E, rev_involutive; reflexivity.
  - rewrite forallb_forall in *. intros x Hx. apply W, in_rev, Hx.
Qed.

Lemma trimEnd_clean s : JS.ends_clean (JS.trimEnd s).
Proof.
  unfold JS.ends_clean, JS.trimEnd. rewrite rev_involutive.
  apply trimStart_clean.
Qed.

Lemma trimEnd_keeps_start s : JS.starts_clean s -> JS.starts_clean (JS.trimEnd s).
Proof.
  intros Hs. destruct (trimEnd_decompose s) as [r [E _]].
  destruct (JS.trimEnd s) as [|c t]; [exact I|].
  rewrite E in Hs. exact Hs.
Qed.

(** [trim] removes a white-space prefix and a white-space suffix, and what
    is left starts and ends with a code unit that is not white space. *)
Lemma trim_spec s :
  exists l r,
    s = l ++ JS.trim s ++ r
    /\ forallb JS.isWhiteSpace l = true
    /\ forallb JS.isWhiteSpace r = true
    /\ JS.starts_clean (JS.trim s) /\ JS.ends_clean (JS.trim s).
Proof.
  unfold JS.trim.
  destruct (trimStart_decompose s) as [l [El Wl]].
  destruct (trimEnd_decompose (JS.trimStart s)) as [r [Er Wr]].
  exists l, r. repeat split; auto.
  - rewrite <- Er. exact El.
  - apply trimEnd_keeps_start, trimStart_clean.
  - apply trimEnd_clean.
Qed.

(** A string is a fixed point of [trim] exactly when it neither starts nor
    ends with white space. *)
Lemma trim_fixed_iff s :
  JS.trim s = s <-> JS.starts_clean s /\ JS.ends_clean s.
Proof.
  split.
  - intros E. destruct (trim_spec s) as [_ [_ [_ [_ [_ [Hs He]]]]]].
    rewrite E in *. auto.
  - intros [Hs He]. unfold JS.trim. rewrite (trimStart_id _ Hs).
    unfold JS.trimEnd. rewrite (trimStart_id _ He). apply rev_involutive.
Qed.

Lemma trim_leading_space s : JS.trim (JS.space :: s) = JS.trim s.
Proof. reflexivity. Qed.

Lemma trimStart_ws_app l x :
  forallb JS.isWhiteSpace l = true -> JS.trimStart (l ++ x) = JS.trimStart x.
Proof.
  induction l as [|c l IH]; simpl; [reflexivity|].
  intros H. apply andb_true_iff in H as [Hc Hl]. rewrite Hc. auto.
Qed.

Lemma trimStart_all_ws l :
  forallb JS.isWhiteSpace l = true -> JS.trimStart l = [].
Proof.
  intros H. rewrite <- (app_nil_r l). rewrite trimStart_ws_app; auto.
Qed.

Lemma forallb_rev (f : JS.code_unit -> bool) l :
  forallb f l = true -> forallb f (rev l) = true.
Proof.
  rewrite !forallb_forall. intros H x Hx. apply H, in_rev, Hx.
Qed.

(** *** The specification's wording determines the result *)

Lemma stripped_trim p : stripped p (JS.trim p).
Proof. exact (trim_spec p). Qed.

Lemma stripped_unique p t : stripped p t -> t = JS.trim p.
Proof.
  intros [l [r [E [Wl [Wr [Hs He]]]]]]. subst p.
  unfold JS.trim. rewrite trimStart_ws_app by assumption.
  destruct t as [|c t].
  - simpl. rewrite trimStart_all_ws by assumption. reflexivity.
  - rewrite (trimStart_id ((c :: t) ++ r)) by exact Hs.
    unfold JS.trimEnd. rewrite rev_app_distr.
    rewrite trimStart_ws_app by (apply forallb_rev; assumption).
    rewrite (trimStart_id _ He). symmetry. apply rev_involutive.
Qed.

Lemma stripped_map pieces trimmed :
  Forall2 stripped pieces trimmed <-> trimmed = map JS.trim pieces.
Proof.
  split.
  - induction 1 as [|p t ps ts Hpt _ IH]; simpl; [reflexivity|].
    rewrite (stripped_unique Hpt), IH. reflexivity.
  - intros ->. induction pieces as [|p ps IH]; simpl; constructor;
      [apply stripped_trim | exact IH].
Qed.

Lemma cut_at_commas_split input pieces :
  cut_at_commas input pieces <-> pieces = JS.split JS.comma input.
Proof.
  unfold cut_at_commas. split.
  - intros [Hn [Hf E]]. subst input. symmetry. apply split_join; assumption.
  - intros ->. split; [apply split_not_nil|].
    split; [apply split_sep_free | apply join_split].
Qed.

Lemma filter_nonempty_truthy (l : list JS.str) :
  filter (fun t => negb (JS.eqb t [])) l = filter JS.truthy l.
Proof. apply filter_ext. intros [|c t]; reflexivity. Qed.

(** [parseSkills] computes the one list the specification describes. *)
Lemma skill_list_of_parseSkills input skills :
  skill_list_of input skills <-> skills = parseSkills input.
Proof.
  unfold skill_list_of, parseSkills. split.
  - intros [pieces [trimmed [Hc [Ht ->]]]].
    apply cut_at_commas_split in Hc. apply stripped_map in Ht. subst.
    apply filter_nonempty_truthy.
  - intros ->. exists (JS.split JS.comma input), (map JS.trim (JS.split JS.comma input)).
    split; [apply cut_at_commas_split; reflexivity|].
    split; [apply stripped_map; reflexivity|].
    symmetry. apply filter_nonempty_truthy.
Qed.

(** *** Flattening and re-splitting a skill list *)

Lemma or_else_empty a : JS.or_else a (JS.lit "") = a.
Proof. destruct a; reflexivity. Qed.

Lemma split_join_comma_space x l :
  Forall (fun p => ~ In JS.comma p) (x :: l) ->
  JS.split JS.comma (JS.join (JS.lit ", ") (x :: l)) = x :: map (cons JS.space) l.
Proof.
  revert x. induction l as [|y l IH]; intros x Hf.
  - simpl. apply split_sep_free_piece. inversion Hf; assumption.
  - inversion Hf as [|? ? Hx Hyl]; subst.
    change (JS.join (JS.lit ", ") (x :: y :: l))
      with (x ++ JS.comma :: JS.space :: JS.join (JS.lit ", ") (y :: l)).
    rewrite split_app_sep by assumption.
    change (JS.split JS.comma (JS.space :: JS.join (JS.lit ", ") (y :: l)))
      with (match JS.split JS.comma (JS.join (JS.lit ", ") (y :: l)) with
            | p :: ps => (JS.space :: p) :: ps
            | [] => [[JS.space]]
            end).
    rewrite IH by assumption. reflexivity.
Qed.

Lemma clean_label_truthy l : clean_label l -> JS.truthy l = true.
Proof. intros [Hn _]. destruct l; [congruence | reflexivity]. Qed.

Lemma filter_truthy_clean l :
  Forall clean_label l -> filter JS.truthy l = l.
Proof.
  induction 1 as [|x l Hx _ IH]; simpl; [reflexivity|].
  rewrite (clean_label_truthy Hx), IH. reflexivity.
Qed.

Lemma map_trim_space_clean l :
  Forall clean_label l -> map JS.trim (map (cons JS.space) l) = l.
Proof.
  induction 1 as [|x l [_ [Hx _]] _ IH]; simpl; [reflexivity|].
  rewrite IH. f_equal. rewrite trim_leading_space. exact Hx.
Qed.

Lemma parseSkills_showSkills l :
  Forall clean_label l -> parseSkills (showSkills l) = l.
Proof.
  intros Hl. unfold showSkills. rewrite or_else_empty.
  destruct l as [|x l]; [reflexivity|].
  unfold parseSkills. rewrite split_join_comma_space.
  - inversion Hl as [|? ? Hx Hl']; subst. simpl map.
    rewrite (map_trim_space_clean Hl').
    destruct Hx as [Hn [Ht Hc]]. rewrite Ht.
    apply (filter_truthy_clean Hl).
  - eapply Forall_impl; [|exact Hl]. intros a [_ [_ Hc]]. exact Hc.
Qed.

(** ** Running the handlers *)

Lemma sent_app t1 t2 : sent (t1 ++ t2) = sent t1 ++ sent t2.
Proof. unfold sent. apply flat_map_app. Qed.

Lemma alerts_app t1 t2 : alerts (t1 ++ t2) = alerts t1 ++ alerts t2.
Proof. unfold alerts. apply flat_map_app. Qed.

(** ** The claims *)

(** The two request lists render their cards with the type of the viewer's
    role: 'outgoing' for the requester, 'incoming' for the target user. *)
Lemma Dashboard_render_card_types w :
  Dashboard.loading (dashboard w) = false ->
  match Dashboard.activeTab (dashboard w) with
  | my_requests =>
      Dashboard_render w
      = RequestCards (map (fun r => (r, SwapRequestCard r (card_type requester)))
                          (Dashboard.myRequests (dashboard w)))
  | incoming =>
      Dashboard_render w
      = RequestCards (map (fun r => (r, SwapRequestCard r (card_type target_user)))
                          (Dashboard.incomingRequests (dashboard w)))
  | _ => True
  end.
Proof.
  intros Hl. unfold Dashboard_render.
  destruct (Dashboard.activeTab (dashboard w)); rewrite ?Hl; auto.
Qed.

(** C1.  For each of the five status values and each viewing role (the
    requester sees the card in the outgoing list, the target user in the
    incoming list) the calls behind the buttons of SwapRequestCard are
    exactly the rows the transition table gives that actor from that status:
    Accept and Reject on an incoming pending request, Cancel Request on an
    outgoing pending request, Mark as Completed on an accepted request for
    both roles, and no button on a rejected, completed or cancelled one. *)
Theorem SwapRequestCard_offers_table_rows
    (s : Status) (a : Actor) (request : SwapRequest.t) :
  SwapRequest.status request = status_string s ->
  map onClick (SwapRequestCard request (card_type a))
    = map (row_call (SwapRequest.id request)) (table_rows s a)
  /\ map label (SwapRequestCard request (card_type a))
     = match s, a with
       | pending, target_user => [JS.lit "Accept"; JS.lit "Reject"]
       | pending, requester => [JS.lit "Cancel Request"]
       | accepted, _ => [JS.lit "Mark as Completed"]
       | _, _ => []
       end
  /\ (terminal s = true -> SwapRequestCard request (card_type a) = []).
Proof.
  intros Hs. unfold SwapRequestCard. rewrite Hs.
  destruct s, a; repeat split; try reflexivity; discriminate.
Qed.

Lemma SwapRequestCard_offers_table_rows_witness :
  SwapRequest.status (Sample.request (JS.lit "pending")) = status_string pending
  /\ map onClick (SwapRequestCard (Sample.request (JS.lit "pending")) (JS.lit "incoming"))
     = [ call_updateSwapRequest (JS.lit "r-1") (JS.lit "accepted");
         call_updateSwapRequest (JS.lit "r-1") (JS.lit "rejected") ].
Proof.
  split; [reflexivity|].
  exact (proj1 (@SwapRequestCard_offers_table_rows pending target_user
                  (Sample.request (JS.lit "pending")) eq_refl)).
Defined.

Lemma RegisterForm_handleSubmit_request backend w :
  exists rest,
    trace (exec (RegisterForm_handleSubmit backend) w)
      = trace w
        ++ Sent (POST_auth_register
                   (RegisterForm_userData (RegisterForm.form (registerForm w))))
           :: rest.
Proof.
  unfold RegisterForm_handleSubmit, register, RegisterForm_setLoading, setToken.
  run.
  destruct (backend (sent (trace w))
              (POST_auth_register
                 (RegisterForm_userData (RegisterForm.form (registerForm w)))));
    simpl; rewrite <- ?app_assoc; simpl; eexists; reflexivity.
Qed.

Lemma ProfileModal_handleSubmit_request backend w :
  exists rest,
    trace (exec (ProfileModal_handleSubmit backend) w)
      = trace w
        ++ Sent (PUT_users_me
                   (ProfileModal_updateData (ProfileModal.form (profileModal w)))
                   (localStorage_token w))
           :: rest.
Proof.
  unfold ProfileModal_handleSubmit, ProfileModal_setSaving, fetchUser, logout,
    setShowProfileModal, setUser, setToken.
  run.
  destruct (backend (sent (trace w))
              (PUT_users_me
                 (ProfileModal_updateData (ProfileModal.form (profileModal w)))
                 (localStorage_token w)));
    simpl.
  - match goal with
    | |- context [backend ?h (GET_auth_me ?t)] =>
        destruct (backend h (GET_auth_me t))
    end; simpl; rewrite <- ?app_assoc; simpl; eexists; reflexivity.
  - rewrite <- ?app_assoc; simpl; eexists; reflexivity.
Qed.

(** C2.  The skill lists RegisterForm.handleSubmit puts into the
    registration request and ProfileModal.handleSubmit puts into the profile
    update are, for every free-text input, the input split on commas, each
    piece trimmed of its surrounding white space, the empty pieces dropped;
    "a, b ,c," gives exactly ["a"; "b"; "c"]; both call sites apply the same
    function. *)
Theorem skills_transmitted_split_trimmed_nonempty :
  (forall backend w,
      let formData := RegisterForm.form (registerForm w) in
      exists userData rest,
        trace (exec (RegisterForm_handleSubmit backend) w)
          = trace w ++ Sent (POST_auth_register userData) :: rest
        /\ RegisterForm.u_skills_offered userData
           = parseSkills (RegisterForm.skills_offered formData)
        /\ RegisterForm.u_skills_wanted userData
           = parseSkills (RegisterForm.skills_wanted formData))
  /\ (forall backend w,
      let formData := ProfileModal.form (profileModal w) in
      exists updateData rest,
        trace (exec (ProfileModal_handleSubmit backend) w)
          = trace w ++ Sent (PUT_users_me updateData (localStorage_token w)) :: rest
        /\ ProfileModal.u_skills_offered updateData
           = parseSkills (ProfileModal.skills_offered formData)
        /\ ProfileModal.u_skills_wanted updateData
           = parseSkills (ProfileModal.skills_wanted formData))
  /\ (forall input skills,
      skill_list_of input skills <-> skills = parseSkills input)
  /\ parseSkills (JS.lit "a, b ,c,") = [JS.lit "a"; JS.lit "b"; JS.lit "c"].
Proof.
  split; [|split; [|split]].
  - intros backend w formData.
    destruct (RegisterForm_handleSubmit_request backend w) as [rest E].
    exists (RegisterForm_userData formData), rest. repeat split. exact E.
  - intros backend w formData.
    destruct (ProfileModal_handleSubmit_request backend w) as [rest E].
    exists (ProfileModal_updateData formData), rest. repeat split. exact E.
  - exact skill_list_of_parseSkills.
  - reflexivity.
Qed.

(** C3.  Whatever list of users the backend returns and whoever the session
    user is, the cards of the directory never include an entry with the
    session user's id.  The list is stored as fetched (the session user's own
    record included when the server sends it) and the exclusion is the filter
    applied when the Browse panel is rendered. *)
Theorem directory_excludes_session_user
    (backend : Backend) (w : World) (me : User.t) :
  AuthProvider.user (auth w) = Some me ->
  (forall cards,
      Dashboard_render w = UserCards cards ->
      cards = filter (not_self (Some me)) (Dashboard.users (dashboard w))
      /\ forall u, In u cards <->
                   In u (Dashboard.users (dashboard w)) /\ User.id u <> User.id me)
  /\ (forall data,
      Dashboard.activeTab (dashboard w) = browse ->
      backend (sent (trace w)) (GET_users (localStorage_token w)) = Ok data ->
      let w' := exec (fetchUsers backend) w in
      Dashboard.users (dashboard w') = data
      /\ Dashboard_render w' = UserCards (filter (not_self (Some me)) data)
      /\ Forall (fun u => User.id u <> User.id me) (filter (not_self (Some me)) data)).
Proof.
  intros Hme.
  assert (Hin : forall l u, In u (filter (not_self (Some me)) l) <->
                            In u l /\ User.id u <> User.id me).
  { intros l u. rewrite filter_In. unfold not_self.
    rewrite negb_true_iff, <- not_true_iff_false, eqb_eq. reflexivity. }
  split.
  - intros cards Hr. unfold Dashboard_render in Hr. rewrite Hme in Hr.
    destruct (Dashboard.activeTab (dashboard w)).
    + destruct (Dashboard.loading (dashboard w)); [discriminate|].
      inversion Hr; subst. split; [reflexivity | intros u; apply Hin].
    + destruct (Dashboard.loading (dashboard w)); discriminate.
    + destruct (Dashboard.loading (dashboard w)); discriminate.
    + destruct (JS.eqb (User.role me) (JS.lit "admin")); discriminate.
  - intros data Htab Hreply w'. subst w'.
    unfold fetchUsers, setLoading, setUsers. run. rewrite Hreply. simpl.
    unfold Dashboard_render. simpl. rewrite Htab, Hme.
    repeat split.
    apply Forall_forall. intros u Hu. apply Hin in Hu. tauto.
Qed.

Lemma directory_excludes_session_user_witness :
  AuthProvider.user (auth Sample.world_browsing) = Some Sample.bob
  /\ Dashboard_render (exec (fetchUsers Sample.backend_ok) Sample.world_browsing)
     = UserCards [Sample.alice].
Proof.
  split; [reflexivity|].
  exact (proj1 (proj2 (proj2
    (@directory_excludes_session_user Sample.backend_ok Sample.world_browsing
       Sample.bob eq_refl) [Sample.alice; Sample.bob] eq_refl eq_refl))).
Defined.

(** C8.  searchBySkill with an empty search term returns at once: nothing is
    sent to the server and the user list on display, like the rest of the
    state, is what it was. *)
Theorem searchBySkill_empty_term_is_noop (backend : Backend) (w : World) :
  Dashboard.searchTerm (dashboard w) = [] ->
  searchBySkill backend w = (Returned tt, w)
  /\ sent (trace (exec (searchBySkill backend) w)) = sent (trace w)
  /\ Dashboard.users (dashboard (exec (searchBySkill backend) w))
     = Dashboard.users (dashboard w).
Proof.
  intros Ht.
  assert (E : searchBySkill backend w = (Returned tt, w)).
  { unfold searchBySkill. run. rewrite Ht. reflexivity. }
  unfold exec. rewrite E. repeat split.
Qed.

Lemma searchBySkill_empty_term_is_noop_witness :
  Dashboard.searchTerm (dashboard Sample.world_browsing) = []
  /\ searchBySkill Sample.backend_ok Sample.world_browsing
     = (Returned tt, Sample.world_browsing).
Proof.
  split; [reflexivity|].
  exact (proj1 (@searchBySkill_empty_term_is_noop Sample.backend_ok
                  Sample.world_browsing eq_refl)).
Defined.

(** C7.  When the login call is rejected, for whatever reason, [login]
    returns false and the session is exactly what it was: the token and the
    user in memory and the token in storage are not written. *)
Theorem login_failure_leaves_session_untouched
    (backend : Backend) (email password : JS.str) (w : World) (e : Failure) :
  backend (sent (trace w)) (POST_auth_login email password) = Rejected e ->
  let w' := exec (login backend email password) w in
  result (login backend email password) w = Returned false
  /\ AuthProvider.token (auth w') = AuthProvider.token (auth w)
  /\ AuthProvider.user (auth w') = AuthProvider.user (auth w)
  /\ localStorage_token w' = localStorage_token w
  /\ w' = emit (ConsoleError (JS.lit "Login failed:") e)
            (emit (Sent (POST_auth_login email password)) w).
Proof.
  intros Hreply w'. subst w'. unfold login. run. rewrite Hreply. simpl.
  repeat split.
Qed.

Lemma login_failure_leaves_session_untouched_witness :
  Sample.backend_forbidden (sent (trace Sample.world))
    (POST_auth_login (JS.lit "bob@example.org") (JS.lit "wrong"))
    = Rejected AuthorizationError
  /\ result (login Sample.backend_forbidden (JS.lit "bob@example.org") (JS.lit "wrong"))
       Sample.world = Returned false
  /\ localStorage_token
       (exec (login Sample.backend_forbidden (JS.lit "bob@example.org") (JS.lit "wrong"))
          Sample.world) = Some (JS.lit "token-0").
Proof.
  split; [reflexivity|].
  pose proof (@login_failure_leaves_session_untouched Sample.backend_forbidden
                (JS.lit "bob@example.org") (JS.lit "wrong") Sample.world
                AuthorizationError eq_refl) as H.
  split; [exact (proj1 H) | exact (proj1 (proj2 (proj2 (proj2 H))))].
Defined.

(** C10.  Any failure of fetchUser, a network failure as much as a rejected
    token, logs the user out: user and token in memory become null and the
    stored token is removed.  Since the provider runs fetchUser on mount
    whenever a token is stored, one failed call at startup discards the
    persisted session. *)
Theorem fetchUser_failure_discards_session
    (backend : Backend) (w : World) (e : Failure) :
  (backend (sent (trace w)) (GET_auth_me (AuthProvider.token (auth w))) = Rejected e ->
   session_cleared (exec (fetchUser backend) w))
  /\ (forall stored,
      localStorage_token w = Some stored ->
      stored <> [] ->
      backend (sent (trace w)) (GET_auth_me (Some stored)) = Rejected e ->
      session_cleared (exec (AuthProvider_mount backend) w)
      /\ sent (trace (exec (AuthProvider_mount backend) w))
         = sent (trace w) ++ [GET_auth_me (Some stored)]).
Proof.
  split.
  - intros Hreply. unfold fetchUser, logout, setToken, setUser. run.
    rewrite Hreply. simpl. repeat split.
  - intros stored Hst Hne Hreply.
    unfold AuthProvider_mount, AuthProvider_useEffect, fetchUser, logout,
      setToken, setUser. run.
    rewrite Hst. simpl.
    destruct stored as [|c stored]; [congruence|]. simpl.
    rewrite Hreply. simpl. split; [repeat split|].
    rewrite !sent_app. simpl. rewrite !app_nil_r. reflexivity.
Qed.

Lemma fetchUser_failure_discards_session_witness :
  (Sample.backend_offline (sent (trace Sample.world))
     (GET_auth_me (Some (JS.lit "token-0"))) = Rejected NetworkError
   /\ localStorage_token Sample.world = Some (JS.lit "token-0"))
  /\ session_cleared (exec (fetchUser Sample.backend_offline) Sample.world)
  /\ session_cleared (exec (AuthProvider_mount Sample.backend_offline) Sample.world).
Proof.
  split; [split; reflexivity|].
  pose proof (@fetchUser_failure_discards_session Sample.backend_offline
                Sample.world NetworkError) as [H1 H2].
  split.
  - exact (H1 eq_refl).
  - refine (proj1 (H2 (JS.lit "token-0") eq_refl _ eq_refl)). discriminate.
Defined.

Lemma requests_added_app {A} (m : Eff A) w l :
  sent (trace (exec m w)) = sent (trace w) ++ l -> requests_added m w = l.
Proof.
  intros E. unfold requests_added. rewrite E.
  rewrite skipn_app, skipn_all, Nat.sub_diag. reflexivity.
Qed.

(** createSwapRequest sends the strings it is given without looking at
    them; the check on the two skills is made by its one caller, the click
    handler of UserCard. *)
Lemma createSwapRequest_sends_its_arguments backend targetUserId requestedSkill offeredSkill w :
  exists rest,
    trace (exec (createSwapRequest backend targetUserId requestedSkill offeredSkill) w)
    = trace w
      ++ Sent (POST_swap_requests targetUserId requestedSkill offeredSkill
                 (localStorage_token w)) :: rest.
Proof.
  unfold createSwapRequest. run.
  match goal with
  | |- context [backend ?h ?q] => destruct (backend h q)
  end; simpl; rewrite <- ?app_assoc; simpl; eexists; reflexivity.
Qed.

(** C5.  The creation path checks the two skill strings before anything is
    sent: when either answer is empty (or its prompt was dismissed) the click
    ends after the two prompts with no request and no alert; a request goes
    out only for two non-empty strings, and then it is the one creation
    request carrying them. *)
Theorem create_requires_both_skills
    (backend : Backend) (targetUser : User.t)
    (answer1 answer2 : option JS.str) (w : World) :
  let w' := exec (UserCard_onClick backend targetUser answer1 answer2) w in
  (truthy_opt answer1 = false \/ truthy_opt answer2 = false ->
   sent (trace w') = sent (trace w)
   /\ alerts (trace w') = alerts (trace w)
   /\ same_state w w')
  /\ (sent (trace w') <> sent (trace w) ->
      exists requestedSkill offeredSkill,
        answer1 = Some requestedSkill /\ answer2 = Some offeredSkill
        /\ requestedSkill <> [] /\ offeredSkill <> []
        /\ sent (trace w')
           = sent (trace w)
             ++ [POST_swap_requests (User.id targetUser) requestedSkill offeredSkill
                   (localStorage_token w)]).
Proof.
  intros w'. subst w'. unfold UserCard_onClick, createSwapRequest. run.
  destruct answer1 as [[|c r]|], answer2 as [[|d o]|]; simpl;
    rewrite ?sent_app, ?alerts_app; simpl; rewrite ?app_nil_r;
    try (split; [intros _; repeat split | intros H; congruence]).
  split.
  - intros [H|H]; discriminate.
  - intros _. exists (c :: r), (d :: o).
    repeat split; try discriminate.
    match goal with
    | |- context [backend ?h ?q] => destruct (backend h q)
    end; simpl; rewrite ?sent_app; simpl; rewrite ?app_nil_r; reflexivity.
Qed.

Lemma create_requires_both_skills_witness :
  (truthy_opt (Some []) = false \/ truthy_opt (Some (JS.lit "Spanish")) = false)
  /\ sent (trace (exec (UserCard_onClick Sample.backend_ok Sample.alice
                          (Some []) (Some (JS.lit "Spanish")))
                    Sample.world_browsing))
     = sent (trace Sample.world_browsing)
  /\ exists requestedSkill offeredSkill,
       Some (JS.lit "Guitar") = Some requestedSkill
       /\ Some (JS.lit "Spanish") = Some offeredSkill
       /\ requestedSkill <> [] /\ offeredSkill <> []
       /\ sent (trace (exec (UserCard_onClick Sample.backend_ok Sample.alice
                               (Some (JS.lit "Guitar")) (Some (JS.lit "Spanish")))
                         Sample.world_browsing))
          = sent (trace Sample.world_browsing)
            ++ [POST_swap_requests (User.id Sample.alice) requestedSkill offeredSkill
                  (localStorage_token Sample.world_browsing)].
Proof.
  split; [left; reflexivity|]. split.
  - exact (proj1 (proj1 (@create_requires_both_skills Sample.backend_ok Sample.alice
                           (Some []) (Some (JS.lit "Spanish")) Sample.world_browsing)
                    (or_introl eq_refl))).
  - refine (proj2 (@create_requires_both_skills Sample.backend_ok Sample.alice
                     (Some (JS.lit "Guitar")) (Some (JS.lit "Spanish"))
                     Sample.world_browsing) _).
    vm_compute. discriminate.
Defined.

(** C4, as stated, fails for creation: a successful createSwapRequest sends
    the creation request, shows its alert and fetches no request list. *)
Lemma createSwapRequest_fetches_no_list :
  requests_added
    (createSwapRequest Sample.backend_ok (JS.lit "u-alice") (JS.lit "Guitar")
       (JS.lit "Spanish"))
    Sample.world_browsing
  = [POST_swap_requests (JS.lit "u-alice") (JS.lit "Guitar") (JS.lit "Spanish")
       (Some (JS.lit "token-0"))]
  /\ existsb is_list_fetch
       (requests_added
          (createSwapRequest Sample.backend_ok (JS.lit "u-alice") (JS.lit "Guitar")
             (JS.lit "Spanish"))
          Sample.world_browsing) = false.
Proof. split; reflexivity. Qed.

(** C4, amended.  After a successful updateSwapRequest the manager fetches
    the list of the active view again (the incoming list on the Incoming tab,
    the outgoing list otherwise), and after a successful deleteSwapRequest the
    outgoing list; the list on display is then the one the server returned, or
    the former one when that fetch fails, never a local patch.
    createSwapRequest sends the creation request alone and touches no list;
    the outgoing and the incoming list are fetched again when their tab is
    activated. *)
Theorem update_and_delete_refetch_the_list (backend : Backend) (w : World) :
  let bearer := localStorage_token w in
  (forall requestId status reply,
      backend (sent (trace w)) (PUT_swap_requests requestId status bearer) = Ok reply ->
      let put := PUT_swap_requests requestId status bearer in
      let w' := exec (updateSwapRequest backend requestId status) w in
      match Dashboard.activeTab (dashboard w) with
      | incoming =>
          requests_added (updateSwapRequest backend requestId status) w
            = [put; GET_swap_requests_incoming bearer]
          /\ Dashboard.incomingRequests (dashboard w')
             = match backend (sent (trace w) ++ [put]) (GET_swap_requests_incoming bearer) with
               | Ok fetched => fetched
               | Rejected _ => Dashboard.incomingRequests (dashboard w)
               end
          /\ Dashboard.myRequests (dashboard w') = Dashboard.myRequests (dashboard w)
      | _ =>
          requests_added (updateSwapRequest backend requestId status) w
            = [put; GET_swap_requests_my_requests bearer]
          /\ Dashboard.myRequests (dashboard w')
             = match backend (sent (trace w) ++ [put]) (GET_swap_requests_my_requests bearer) with
               | Ok fetched => fetched
               | Rejected _ => Dashboard.myRequests (dashboard w)
               end
          /\ Dashboard.incomingRequests (dashboard w')
             = Dashboard.incomingRequests (dashboard w)
      end)
  /\ (forall requestId reply,
      backend (sent (trace w)) (DELETE_swap_requests requestId bearer) = Ok reply ->
      let del := DELETE_swap_requests requestId bearer in
      let w' := exec (deleteSwapRequest backend requestId) w in
      requests_added (deleteSwapRequest backend requestId) w
        = [del; GET_swap_requests_my_requests bearer]
      /\ Dashboard.myRequests (dashboard w')
         = match backend (sent (trace w) ++ [del]) (GET_swap_requests_my_requests bearer) with
           | Ok fetched => fetched
           | Rejected _ => Dashboard.myRequests (dashboard w)
           end
      /\ Dashboard.incomingRequests (dashboard w')
         = Dashboard.incomingRequests (dashboard w))
  /\ (forall targetUserId requestedSkill offeredSkill,
      let w' := exec (createSwapRequest backend targetUserId requestedSkill offeredSkill) w in
      requests_added (createSwapRequest backend targetUserId requestedSkill offeredSkill) w
        = [POST_swap_requests targetUserId requestedSkill offeredSkill bearer]
      /\ same_state w w')
  /\ (let activate := (setActiveTab my_requests ;; Dashboard_useEffect backend) in
      requests_added activate w = [GET_swap_requests_my_requests bearer]
      /\ Dashboard.myRequests (dashboard (exec activate w))
         = match backend (sent (trace w)) (GET_swap_requests_my_requests bearer) with
           | Ok fetched => fetched
           | Rejected _ => Dashboard.myRequests (dashboard w)
           end)
  /\ (let activate := (setActiveTab incoming ;; Dashboard_useEffect backend) in
      requests_added activate w = [GET_swap_requests_incoming bearer]
      /\ Dashboard.incomingRequests (dashboard (exec activate w))
         = match backend (sent (trace w)) (GET_swap_requests_incoming bearer) with
           | Ok fetched => fetched
           | Rejected _ => Dashboard.incomingRequests (dashboard w)
           end).
Proof.
  intros bearer. subst bearer. split; [|split; [|split; [|split]]].
  - intros requestId status reply Hreply put w'. subst put w'.
    unfold updateSwapRequest, fetchIncomingRequests, fetchMyRequests,
      setLoading, setIncomingRequests, setMyRequests.
    destruct (Dashboard.activeTab (dashboard w)) eqn:Htab;
      (split; [apply requests_added_app|]);
      run; rewrite Hreply; simpl; rewrite Htab; simpl;
      rewrite ?sent_app; simpl; rewrite ?app_nil_r;
      match goal with
      | |- context [backend (?h ++ [?p]) ?q] => destruct (backend (h ++ [p]) q)
      end; simpl; rewrite ?sent_app; simpl;
      rewrite ?app_nil_r, <- ?app_assoc; simpl; repeat split.
  - intros requestId reply Hreply del w'. subst del w'.
    unfold deleteSwapRequest, fetchMyRequests, setLoading, setMyRequests.
    (split; [apply requests_added_app|]);
      run; rewrite Hreply; simpl;
      rewrite ?sent_app; simpl; rewrite ?app_nil_r;
      match goal with
      | |- context [backend (?h ++ [?p]) ?q] => destruct (backend (h ++ [p]) q)
      end; simpl; rewrite ?sent_app; simpl;
      rewrite ?app_nil_r, <- ?app_assoc; simpl; repeat split.
  - intros targetUserId requestedSkill offeredSkill w'. subst w'.
    unfold createSwapRequest.
    (split; [apply requests_added_app|]);
      run;
      match goal with
      | |- context [backend ?h ?q] => destruct (backend h q)
      end; simpl; rewrite ?sent_app; simpl;
      rewrite ?app_nil_r, <- ?app_assoc; simpl; repeat split.
  - intros activate. subst activate.
    unfold Dashboard_useEffect, setActiveTab, fetchMyRequests, setLoading,
      setMyRequests.
    (split; [apply requests_added_app|]);
      run;
      destruct (backend (sent (trace w))
                  (GET_swap_requests_my_requests (localStorage_token w)));
      simpl; rewrite ?sent_app; simpl;
      rewrite ?app_nil_r, <- ?app_assoc; simpl; reflexivity.
  - intros activate. subst activate.
    unfold Dashboard_useEffect, setActiveTab, fetchIncomingRequests, setLoading,
      setIncomingRequests.
    (split; [apply requests_added_app|]);
      run;
      destruct (backend (sent (trace w))
                  (GET_swap_requests_incoming (localStorage_token w)));
      simpl; rewrite ?sent_app; simpl;
      rewrite ?app_nil_r, <- ?app_assoc; simpl; reflexivity.
Qed.

Lemma update_and_delete_refetch_the_list_witness :
  (Sample.backend_ok (sent (trace Sample.world))
     (PUT_swap_requests (JS.lit "r-1") (JS.lit "completed") (Some (JS.lit "token-0")))
     = Ok (Sample.request (JS.lit "completed"))
   /\ Sample.backend_ok (sent (trace Sample.world))
        (DELETE_swap_requests (JS.lit "r-1") (Some (JS.lit "token-0")))
      = Ok tt)
  /\ requests_added
       (updateSwapRequest Sample.backend_ok (JS.lit "r-1") (JS.lit "completed"))
       Sample.world
     = [PUT_swap_requests (JS.lit "r-1") (JS.lit "completed") (Some (JS.lit "token-0"));
        GET_swap_requests_my_requests (Some (JS.lit "token-0"))]
  /\ requests_added
       (updateSwapRequest Sample.backend_ok (JS.lit "r-1") (JS.lit "accepted"))
       Sample.world_incoming
     = [PUT_swap_requests (JS.lit "r-1") (JS.lit "accepted") (Some (JS.lit "token-0"));
        GET_swap_requests_incoming (Some (JS.lit "token-0"))]
  /\ requests_added (deleteSwapRequest Sample.backend_ok (JS.lit "r-1")) Sample.world
     = [DELETE_swap_requests (JS.lit "r-1") (Some (JS.lit "token-0"));
        GET_swap_requests_my_requests (Some (JS.lit "token-0"))]
  /\ requests_added (setActiveTab my_requests ;; Dashboard_useEffect Sample.backend_ok)
       Sample.world_browsing
     = [GET_swap_requests_my_requests (Some (JS.lit "token-0"))].
Proof.
  split; [split; reflexivity|].
  pose proof (@update_and_delete_refetch_the_list Sample.backend_ok Sample.world)
    as [Hput [Hdel _]].
  pose proof (@update_and_delete_refetch_the_list Sample.backend_ok Sample.world_browsing)
    as [_ [_ [_ [Hmine _]]]].
  pose proof (@update_and_delete_refetch_the_list Sample.backend_ok Sample.world_incoming)
    as [Hput' _].
  split; [|split; [|split]].
  - exact (proj1 (Hput (JS.lit "r-1") (JS.lit "completed")
                    (Sample.request (JS.lit "completed")) eq_refl)).
  - exact (proj1 (Hput' (JS.lit "r-1") (JS.lit "accepted")
                    (Sample.request (JS.lit "accepted")) eq_refl)).
  - exact (proj1 (Hdel (JS.lit "r-1") tt eq_refl)).
  - exact (proj1 Hmine).
Defined.

(** C6, as stated, fails for transitions: a failed updateSwapRequest leaves a
    console error and shows no notification at all. *)
Lemma updateSwapRequest_failure_shows_no_alert :
  trace (exec (updateSwapRequest Sample.backend_offline (JS.lit "r-1") (JS.lit "completed"))
           Sample.world)
  = [Sent (PUT_swap_requests (JS.lit "r-1") (JS.lit "completed") (Some (JS.lit "token-0")));
     ConsoleError (JS.lit "Failed to update swap request:") NetworkError]
  /\ alerts (trace (exec (updateSwapRequest Sample.backend_offline (JS.lit "r-1")
                            (JS.lit "completed"))
                      Sample.world)) = [].
Proof. split; reflexivity. Qed.

(** C6, amended.  Whatever the kind of failure, a failed createSwapRequest is
    logged and surfaced as the alert 'Failed to send swap request', while a
    failed updateSwapRequest or deleteSwapRequest is logged to the console
    only; in all three the state of the view (lists, tab, flags, session,
    storage) is left as it was and nothing further is sent. *)
Theorem failed_mutation_leaves_state_unchanged
    (backend : Backend) (w : World) (e : Failure) :
  let bearer := localStorage_token w in
  (forall targetUserId requestedSkill offeredSkill,
      backend (sent (trace w))
        (POST_swap_requests targetUserId requestedSkill offeredSkill bearer) = Rejected e ->
      let w' := exec (createSwapRequest backend targetUserId requestedSkill offeredSkill) w in
      trace w'
        = trace w
          ++ [Sent (POST_swap_requests targetUserId requestedSkill offeredSkill bearer);
              ConsoleError (JS.lit "Failed to create swap request:") e;
              Alert (JS.lit "Failed to send swap request")]
      /\ same_state w w')
  /\ (forall requestId status,
      backend (sent (trace w)) (PUT_swap_requests requestId status bearer) = Rejected e ->
      let w' := exec (updateSwapRequest backend requestId status) w in
      trace w'
        = trace w
          ++ [Sent (PUT_swap_requests requestId status bearer);
              ConsoleError (JS.lit "Failed to update swap request:") e]
      /\ same_state w w')
  /\ (forall requestId,
      backend (sent (trace w)) (DELETE_swap_requests requestId bearer) = Rejected e ->
      let w' := exec (deleteSwapRequest backend requestId) w in
      trace w'
        = trace w
          ++ [Sent (DELETE_swap_requests requestId bearer);
              ConsoleError (JS.lit "Failed to delete swap request:") e]
      /\ same_state w w').
Proof.
  intros bearer. subst bearer. split; [|split].
  - intros targetUserId requestedSkill offeredSkill Hreply w'. subst w'.
    unfold createSwapRequest. run. rewrite Hreply. simpl.
    rewrite <- !app_assoc. repeat split.
  - intros requestId status Hreply w'. subst w'.
    unfold updateSwapRequest. run. rewrite Hreply. simpl.
    rewrite <- !app_assoc. repeat split.
  - intros requestId Hreply w'. subst w'.
    unfold deleteSwapRequest. run. rewrite Hreply. simpl.
    rewrite <- !app_assoc. repeat split.
Qed.

Lemma failed_mutation_leaves_state_unchanged_witness :
  Sample.backend_forbidden (sent (trace Sample.world))
    (POST_swap_requests (JS.lit "u-alice") (JS.lit "Guitar") (JS.lit "Spanish")
       (Some (JS.lit "token-0")))
    = Rejected AuthorizationError
  /\ alerts (trace (exec (createSwapRequest Sample.backend_forbidden (JS.lit "u-alice")
                            (JS.lit "Guitar") (JS.lit "Spanish"))
                      Sample.world))
     = [JS.lit "Failed to send swap request"]
  /\ same_state Sample.world
       (exec (deleteSwapRequest Sample.backend_forbidden (JS.lit "r-1")) Sample.world).
Proof.
  split; [reflexivity|].
  pose proof (@failed_mutation_leaves_state_unchanged Sample.backend_forbidden
                Sample.world AuthorizationError) as [Hpost [_ Hdel]].
  split.
  - rewrite (proj1 (Hpost (JS.lit "u-alice") (JS.lit "Guitar") (JS.lit "Spanish") eq_refl)).
    reflexivity.
  - exact (proj2 (Hdel (JS.lit "r-1") eq_refl)).
Defined.

Lemma ProfileModal_useEffect_loads w user :
  AuthProvider.user (auth w) = Some user ->
  let w' := exec ProfileModal_useEffect w in
  ProfileModal.form (profileModal w') = ProfileModal_formOf user
  /\ trace w' = trace w
  /\ localStorage_token w' = localStorage_token w.
Proof.
  intros Hu. unfold ProfileModal_useEffect, ProfileModal_setFormData. run.
  rewrite Hu. simpl. repeat split.
Qed.

(** C9.  For a user whose offered and wanted skills are non-empty, trimmed,
    comma-free labels, loading the profile form (the lists joined with ', ')
    and submitting it unmodified sends an update whose two skill lists are
    exactly the user's lists. *)
Theorem profile_skills_round_trip
    (backend : Backend) (w : World) (user : User.t) :
  AuthProvider.user (auth w) = Some user ->
  Forall clean_label (User.skills_offered user) ->
  Forall clean_label (User.skills_wanted user) ->
  parseSkills (ProfileModal.skills_offered (ProfileModal_formOf user))
    = User.skills_offered user
  /\ parseSkills (ProfileModal.skills_wanted (ProfileModal_formOf user))
     = User.skills_wanted user
  /\ exists updateData rest,
       trace (exec (ProfileModal_useEffect ;; ProfileModal_handleSubmit backend) w)
         = trace w ++ Sent (PUT_users_me updateData (localStorage_token w)) :: rest
       /\ ProfileModal.u_skills_offered updateData = User.skills_offered user
       /\ ProfileModal.u_skills_wanted updateData = User.skills_wanted user.
Proof.
  intros Hu Ho Hw.
  pose proof (parseSkills_showSkills Ho) as Eo.
  pose proof (parseSkills_showSkills Hw) as Ew.
  split; [exact Eo | split; [exact Ew|]].
  destruct (ProfileModal_useEffect_loads w Hu) as [Hform [Htr Hst]].
  destruct (ProfileModal_handleSubmit_request backend (exec ProfileModal_useEffect w))
    as [rest E].
  rewrite Hform, Htr, Hst in E.
  exists (ProfileModal_updateData (ProfileModal_formOf user)), rest.
  split; [|split; [exact Eo | exact Ew]].
  rewrite <- E. unfold exec, bind.
  destruct (ProfileModal_useEffect w) as [[[]|err] w1] eqn:Ee; [reflexivity|].
  exfalso. revert Ee. unfold ProfileModal_useEffect, ProfileModal_setFormData. run.
  rewrite Hu. discriminate.
Qed.

Lemma profile_skills_round_trip_witness :
  (AuthProvider.user (auth Sample.world_alice) = Some Sample.alice
   /\ Forall clean_label (User.skills_offered Sample.alice)
   /\ Forall clean_label (User.skills_wanted Sample.alice))
  /\ ProfileModal.skills_offered (ProfileModal_formOf Sample.alice)
     = JS.lit "Guitar, Cooking"
  /\ parseSkills (ProfileModal.skills_offered (ProfileModal_formOf Sample.alice))
     = [JS.lit "Guitar"; JS.lit "Cooking"].
Proof.
  assert (Ho : Forall clean_label (User.skills_offered Sample.alice)).
  { repeat constructor; try discriminate;
      simpl; intros H; repeat (destruct H as [H|H]; [discriminate|]); exact H. }
  assert (Hw : Forall clean_label (User.skills_wanted Sample.alice)).
  { repeat constructor; try discriminate;
      simpl; intros H; repeat (destruct H as [H|H]; [discriminate|]); exact H. }
  split; [split; [reflexivity | split; assumption]|].
  split; [reflexivity|].
  exact (proj1 (@profile_skills_round_trip Sample.backend_ok Sample.world_alice
                  Sample.alice eq_refl Ho Hw)).
Defined.

(** ** Further properties of the skill-list encoding *)

Lemma trim_blank s : blank s = true -> JS.trim s = [].
Proof.
  intros H. unfold JS.trim. rewrite (trimStart_all_ws _ H). reflexivity.
Qed.

Lemma trim_nil_blank s : JS.trim s = [] -> blank s = true.
Proof.
  intros E. destruct (trim_spec s) as [l [r [Es [Wl [Wr _]]]]].
  rewrite E in Es. simpl in Es. rewrite Es. unfold blank.
  rewrite forallb_app, Wl, Wr. reflexivity.
Qed.

Lemma trim_incl s c : In c (JS.trim s) -> In c s.
Proof.
  intros H. destruct (trim_spec s) as [l [r [Es _]]].
  rewrite Es. apply in_or_app; right. apply in_or_app; left. exact H.
Qed.

Lemma trim_trim s : JS.trim (JS.trim s) = JS.trim s.
Proof.
  apply trim_fixed_iff.
  destruct (trim_spec s) as [_ [_ [_ [_ [_ H]]]]]. exact H.
Qed.

Lemma split_app_any sep a b :
  JS.split sep (a ++ sep :: b) = JS.split sep a ++ JS.split sep b.
Proof.
  induction a as [|c a IH]; simpl.
  - rewrite N.eqb_refl. reflexivity.
  - destruct (N.eqb c sep); [rewrite IH; reflexivity|].
    rewrite IH. pose proof (split_not_nil sep a) as Hn.
    destruct (JS.split sep a); [congruence | reflexivity].
Qed.

Lemma in_join_piece (sep : JS.str) l p c :
  In p l -> In c p -> In c (JS.join sep l).
Proof.
  induction l as [|x l IH]; intros Hp Hc; [destruct Hp|].
  destruct l as [|y l].
  - destruct Hp as [->|[]]. exact Hc.
  - change (JS.join sep (x :: y :: l)) with (x ++ sep ++ JS.join sep (y :: l)).
    destruct Hp as [->|Hp].
    + apply in_or_app; left; exact Hc.
    + apply in_or_app; right. apply in_or_app; right. auto.
Qed.

Lemma in_join_inv sep l c :
  In c (JS.join [sep] l) -> c = sep \/ exists p, In p l /\ In c p.
Proof.
  induction l as [|x l IH]; intros H; [destruct H|].
  destruct l as [|y l].
  - right. exists x. split; [left; reflexivity | exact H].
  - change (JS.join [sep] (x :: y :: l))
      with (x ++ sep :: JS.join [sep] (y :: l)) in H.
    apply in_app_or in H as [H|[H|H]].
    + right. exists x. split; [left; reflexivity | exact H].
    + left. congruence.
    + destruct (IH H) as [E|[p [Hp Hc]]]; [left; exact E|].
      right. exists p. split; [right; exact Hp | exact Hc].
Qed.

Lemma filter_nil_iff {A} (f : A -> bool) l :
  filter f l = [] <-> forall x, In x l -> f x = false.
Proof.
  induction l as [|x l IH]; simpl.
  - split; [intros _ y [] | reflexivity].
  - destruct (f x) eqn:Hx.
    + split; [discriminate|]. intros H. rewrite (H x) in Hx by auto. discriminate.
    + rewrite IH. split.
      * intros H y [<-|Hy]; auto.
      * intros H y Hy. apply H. auto.
Qed.

(** X1.  Whatever the free text, every label [parseSkills] produces is
    non-empty, free of commas and free of surrounding white space. *)
Theorem parseSkills_labels_are_clean (input : JS.str) :
  Forall clean_label (parseSkills input).
Proof.
  unfold parseSkills. apply Forall_forall. intros t Ht.
  apply filter_In in Ht as [Ht Hnz].
  apply in_map_iff in Ht as [p [<- Hp]].
  repeat split.
  - intros E. rewrite E in Hnz. discriminate.
  - apply trim_trim.
  - intros Hc. apply trim_incl in Hc.
    pose proof (split_sep_free JS.comma input) as Hf.
    rewrite Forall_forall in Hf. exact (Hf p Hp Hc).
Qed.

(** X2.  A list produced by [parseSkills] survives the profile form as it
    is: showing it joined with ', ' and parsing it again gives the same list,
    so saving an untouched form twice sends the same skills twice. *)
Theorem parseSkills_showSkills_stable (input : JS.str) :
  parseSkills (showSkills (parseSkills input)) = parseSkills input.
Proof. apply parseSkills_showSkills, parseSkills_labels_are_clean. Qed.

(** X3.  A comma concatenates: the skills of [a,b] are the skills of [a]
    followed by those of [b]; order and duplicates are kept. *)
Theorem parseSkills_comma_concatenates (a b : JS.str) :
  parseSkills (a ++ JS.comma :: b) = parseSkills a ++ parseSkills b.
Proof.
  unfold parseSkills. rewrite split_app_any, map_app, filter_app. reflexivity.
Qed.

(** X4.  The transmitted list is empty exactly when the text holds nothing
    but commas and white space. *)
Theorem parseSkills_empty_iff (input : JS.str) :
  parseSkills input = []
  <-> forallb (fun c => JS.isWhiteSpace c || N.eqb c JS.comma) input = true.
Proof.
  unfold parseSkills. rewrite filter_nil_iff, forallb_forall. split.
  - intros H c Hc. rewrite <- (join_split JS.comma input) in Hc.
    apply in_join_inv in Hc as [->|[p [Hp Hcp]]].
    + rewrite N.eqb_refl. apply orb_true_r.
    + assert (Hb : blank p = true).
      { apply trim_nil_blank. specialize (H (JS.trim p) (in_map _ _ _ Hp)).
        destruct (JS.trim p); [reflexivity | discriminate]. }
      unfold blank in Hb. rewrite forallb_forall in Hb.
      rewrite (Hb c Hcp). reflexivity.
  - intros H t Ht. apply in_map_iff in Ht as [p [<- Hp]].
    rewrite trim_blank; [reflexivity|].
    unfold blank. apply forallb_forall. intros c Hc.
    assert (Hin : In c input).
    { rewrite <- (join_split JS.comma input). eapply in_join_piece; eauto. }
    specialize (H c Hin). apply orb_true_iff in H as [H|H]; [exact H|].
    apply N.eqb_eq in H. subst c. exfalso.
    pose proof (split_sep_free JS.comma input) as Hf.
    rewrite Forall_forall in Hf. exact (Hf p Hp Hc).
Qed.

(** ** Further properties of the session store *)

Lemma skipn_length_app {A} (a b : list A) : skipn (List.length a) (a ++ b) = b.
Proof. rewrite skipn_app, skipn_all, Nat.sub_diag. reflexivity. Qed.

(** Brings [requests_added] and [alerts_added] of a run to the list added. *)
Ltac added :=
  rewrite ?sent_app, ?alerts_app; simpl;
  rewrite ?app_nil_r, <- ?app_assoc; simpl;
  rewrite ?skipn_length_app, ?skipn_all; try reflexivity.

(** X5.  logout, from any state: user and token in memory are null, the
    stored token is gone and App shows the authentication screen; nothing is
    sent or shown, and a second logout leaves the session, the storage and
    the trace as the first one left them. *)
Theorem logout_clears_session_idempotent (w : World) :
  session_cleared (exec logout w)
  /\ App_render (exec logout w) = AuthScreen
  /\ trace (exec logout w) = trace w
  /\ auth (exec logout (exec logout w)) = auth (exec logout w)
  /\ localStorage_token (exec logout (exec logout w)) = localStorage_token (exec logout w)
  /\ trace (exec logout (exec logout w)) = trace (exec logout w).
Proof.
  unfold logout, setToken, setUser. run. repeat split.
Qed.

(** X6.  A login the server accepts returns true and installs the returned
    token both in memory and in storage, replacing whatever token was there;
    the user in memory is not touched by login itself and one request is
    sent. *)
Theorem login_success_installs_token
    (backend : Backend) (email password : JS.str) (w : World) (access_token : JS.str) :
  backend (sent (trace w)) (POST_auth_login email password) = Ok access_token ->
  let w' := exec (login backend email password) w in
  result (login backend email password) w = Returned true
  /\ AuthProvider.token (auth w') = Some access_token
  /\ localStorage_token w' = Some access_token
  /\ AuthProvider.user (auth w') = AuthProvider.user (auth w)
  /\ trace w' = trace w ++ [Sent (POST_auth_login email password)].
Proof.
  intros Hreply w'. subst w'. unfold login, setToken. run. rewrite Hreply.
  simpl. repeat split.
Qed.

Lemma login_success_installs_token_witness :
  Sample.backend_ok (sent (trace Sample.world))
    (POST_auth_login (JS.lit "bob@example.org") (JS.lit "hunter2")) = Ok (JS.lit "token-1")
  /\ localStorage_token
       (exec (login Sample.backend_ok (JS.lit "bob@example.org") (JS.lit "hunter2"))
          Sample.world) = Some (JS.lit "token-1").
Proof.
  split; [reflexivity|].
  exact (proj1 (proj2 (proj2
    (@login_success_installs_token Sample.backend_ok (JS.lit "bob@example.org")
       (JS.lit "hunter2") Sample.world (JS.lit "token-1") eq_refl)))).
Defined.

(** X7.  register has login's contract: rejected, it returns false and
    leaves token, user and stored token as they were; accepted, it returns
    true and installs the returned token in memory and in storage. *)
Theorem register_outcomes
    (backend : Backend) (userData : RegisterForm.userData) (w : World) :
  let w' := exec (register backend userData) w in
  (forall e,
      backend (sent (trace w)) (POST_auth_register userData) = Rejected e ->
      result (register backend userData) w = Returned false
      /\ auth w' = auth w
      /\ localStorage_token w' = localStorage_token w)
  /\ (forall access_token,
      backend (sent (trace w)) (POST_auth_register userData) = Ok access_token ->
      result (register backend userData) w = Returned true
      /\ AuthProvider.token (auth w') = Some access_token
      /\ localStorage_token w' = Some access_token
      /\ AuthProvider.user (auth w') = AuthProvider.user (auth w)).
Proof.
  intros w'. subst w'. unfold register, setToken. run.
  split; intros x Hreply; rewrite Hreply; simpl; repeat split.
Qed.

Lemma register_outcomes_witness :
  (Sample.backend_offline (sent (trace Sample.world_fresh))
     (POST_auth_register (RegisterForm_userData (RegisterForm.form (registerForm Sample.world_fresh))))
   = Rejected NetworkError)
  /\ localStorage_token
       (exec (register Sample.backend_offline
                (RegisterForm_userData (RegisterForm.form (registerForm Sample.world_fresh))))
          Sample.world_fresh) = None
  /\ localStorage_token
       (exec (register Sample.backend_ok
                (RegisterForm_userData (RegisterForm.form (registerForm Sample.world_fresh))))
          Sample.world_fresh) = Some (JS.lit "token-1").
Proof.
  split; [reflexivity|]. split.
  - exact (proj2 (proj2 (proj1
      (@register_outcomes Sample.backend_offline
         (RegisterForm_userData (RegisterForm.form (registerForm Sample.world_fresh)))
         Sample.world_fresh) NetworkError eq_refl))).
  - exact (proj1 (proj2 (proj2 (proj2
      (@register_outcomes Sample.backend_ok
         (RegisterForm_userData (RegisterForm.form (registerForm Sample.world_fresh)))
         Sample.world_fresh) (JS.lit "token-1") eq_refl)))).
Defined.

(** X8.  A fetchUser the server answers replaces the user in memory by the
    record returned and touches neither token; the request carries the token
    held in memory, and nothing is shown or logged. *)
Theorem fetchUser_success_sets_user
    (backend : Backend) (w : World) (response : User.t) :
  backend (sent (trace w)) (GET_auth_me (AuthProvider.token (auth w))) = Ok response ->
  let w' := exec (fetchUser backend) w in
  AuthProvider.user (auth w') = Some response
  /\ AuthProvider.token (auth w') = AuthProvider.token (auth w)
  /\ localStorage_token w' = localStorage_token w
  /\ trace w' = trace w ++ [Sent (GET_auth_me (AuthProvider.token (auth w)))].
Proof.
  intros Hreply w'. subst w'. unfold fetchUser, setUser. run. rewrite Hreply.
  simpl. repeat split.
Qed.

Lemma fetchUser_success_sets_user_witness :
  Sample.backend_ok (sent (trace Sample.world_alice))
    (GET_auth_me (AuthProvider.token (auth Sample.world_alice))) = Ok Sample.bob
  /\ AuthProvider.user (auth (exec (fetchUser Sample.backend_ok) Sample.world_alice))
     = Some Sample.bob.
Proof.
  split; [reflexivity|].
  exact (proj1 (@fetchUser_success_sets_user Sample.backend_ok Sample.world_alice
                  Sample.bob eq_refl)).
Defined.

Lemma exec_bind {A B} (m : Eff A) (k : A -> Eff B) w a w1 :
  m w = (Returned a, w1) -> exec (bind m k) w = exec (k a) w1.
Proof. intros E. unfold exec, bind. rewrite E. reflexivity. Qed.

Lemma auth_call_keeps_sync backend c w :
  exists w1,
    auth_call backend c w = (Returned tt, w1)
    /\ (token_in_sync w -> token_in_sync w1).
Proof.
  unfold token_in_sync.
  destruct c as [email password|userData| | |]; simpl.
  - unfold login, setToken. run.
    destruct (backend (sent (trace w)) (POST_auth_login email password));
      simpl; eexists; split; try reflexivity; auto.
  - unfold register, setToken. run.
    destruct (backend (sent (trace w)) (POST_auth_register userData));
      simpl; eexists; split; try reflexivity; auto.
  - unfold logout, setToken, setUser. run. eexists; split; reflexivity.
  - unfold fetchUser, logout, setToken, setUser. run.
    destruct (backend (sent (trace w)) (GET_auth_me (AuthProvider.token (auth w))));
      simpl; eexists; split; try reflexivity; auto.
  - unfold AuthProvider_useEffect, fetchUser, logout, setToken, setUser. run.
    destruct (truthy_opt (AuthProvider.token (auth w))).
    + destruct (backend (sent (trace w)) (GET_auth_me (AuthProvider.token (auth w))));
        simpl; eexists; split; try reflexivity; auto.
    + eexists; split; [reflexivity | auto].
Qed.

Lemma auth_calls_keep_sync backend cs w :
  token_in_sync w -> token_in_sync (exec (auth_calls backend cs) w).
Proof.
  revert w. induction cs as [|c cs IH]; intros w Hw; [exact Hw|].
  destruct (auth_call_keeps_sync backend c w) as [w1 [E Hk]].
  simpl. erewrite exec_bind by exact E. apply IH, Hk, Hw.
Qed.

Lemma AuthProvider_mount_in_sync backend w :
  exists w1,
    AuthProvider_mount backend w = (Returned tt, w1) /\ token_in_sync w1.
Proof.
  unfold token_in_sync, AuthProvider_mount, AuthProvider_useEffect, fetchUser,
    logout, setToken, setUser. run.
  destruct (truthy_opt (localStorage_token w)).
  - match goal with
    | |- context [backend ?h ?q] => destruct (backend h q)
    end; simpl; eexists; split; reflexivity.
  - eexists; split; reflexivity.
Qed.

(** X9.  Provided every accepted login and registration answers with its
    [access_token] string, as [reply_type] has it: from the first mount on,
    through any sequence of login, register, logout, fetchUser and runs of
    the token effect, whichever calls the server accepts or rejects, the token
    in memory and the token in storage are the same. *)
Theorem token_in_memory_is_token_in_storage
    (backend : Backend) (cs : list AuthCall) (w : World) :
  token_in_sync (exec (AuthProvider_mount backend ;; auth_calls backend cs) w).
Proof.
  destruct (AuthProvider_mount_in_sync backend w) as [w1 [E Hs]].
  erewrite exec_bind by exact E. apply auth_calls_keep_sync, Hs.
Qed.

(** X10.  Mounting with no stored token, or with an empty one, sends
    nothing: the user stays null and App shows the authentication screen. *)
Theorem mount_without_token_sends_nothing (backend : Backend) (w : World) :
  truthy_opt (localStorage_token w) = false ->
  let w' := exec (AuthProvider_mount backend) w in
  trace w' = trace w
  /\ AuthProvider.user (auth w') = None
  /\ AuthProvider.token (auth w') = localStorage_token w
  /\ App_render w' = AuthScreen.
Proof.
  intros Ht w'. subst w'. unfold AuthProvider_mount, AuthProvider_useEffect. run.
  rewrite Ht. simpl. repeat split.
Qed.

Lemma mount_without_token_sends_nothing_witness :
  truthy_opt (localStorage_token Sample.world_fresh) = false
  /\ trace (exec (AuthProvider_mount Sample.backend_ok) Sample.world_fresh)
     = trace Sample.world_fresh.
Proof.
  split; [reflexivity|].
  exact (proj1 (@mount_without_token_sends_nothing Sample.backend_ok
                  Sample.world_fresh eq_refl)).
Defined.

(** X11.  An accepted login followed by the token effect sends the login and
    then /auth/me with the new token.  When /auth/me answers, the user is set
    and App shows the Dashboard; when it fails, the session is cleared again,
    the token just stored included, and App stays on the authentication
    screen. *)
Theorem login_then_token_effect
    (backend : Backend) (email password : JS.str) (w : World) (access_token : JS.str) :
  backend (sent (trace w)) (POST_auth_login email password) = Ok access_token ->
  access_token <> [] ->
  let m := (_ <- login backend email password ;; AuthProvider_useEffect backend) in
  let w' := exec m w in
  requests_added m w
    = [POST_auth_login email password; GET_auth_me (Some access_token)]
  /\ match backend (sent (trace w) ++ [POST_auth_login email password])
             (GET_auth_me (Some access_token)) with
     | Ok user =>
         AuthProvider.user (auth w') = Some user
         /\ localStorage_token w' = Some access_token
         /\ App_render w' = DashboardScreen
     | Rejected _ =>
         session_cleared w' /\ App_render w' = AuthScreen
     end.
Proof.
  intros Hreply Hne m w'. subst m w'.
  assert (Ht : JS.truthy access_token = true)
    by (destruct access_token; [congruence | reflexivity]).
  unfold login, AuthProvider_useEffect, fetchUser, logout, setToken, setUser.
  split.
  - apply requests_added_app. run. rewrite Hreply. simpl. rewrite ?Ht. simpl.
    rewrite ?sent_app. simpl.
    match goal with
    | |- context [backend ?h ?q] => destruct (backend h q)
    end; simpl; rewrite ?sent_app; simpl; rewrite ?app_nil_r, <- ?app_assoc;
      reflexivity.
  - run. rewrite Hreply. simpl. rewrite ?Ht. simpl. rewrite ?sent_app. simpl.
    destruct (backend (sent (trace w) ++ [POST_auth_login email password])
                (GET_auth_me (Some access_token)));
      simpl; rewrite ?Ht; repeat split; unfold App_render; simpl; rewrite Ht; reflexivity.
Qed.

Lemma login_then_token_effect_witness :
  (Sample.backend_login_only (sent (trace Sample.world_fresh))
     (POST_auth_login (JS.lit "bob@example.org") (JS.lit "hunter2")) = Ok (JS.lit "token-2")
   /\ JS.lit "token-2" <> [])
  /\ requests_added
       (_ <- login Sample.backend_login_only (JS.lit "bob@example.org") (JS.lit "hunter2") ;;
        AuthProvider_useEffect Sample.backend_login_only)
       Sample.world_fresh
     = [POST_auth_login (JS.lit "bob@example.org") (JS.lit "hunter2");
        GET_auth_me (Some (JS.lit "token-2"))].
Proof.
  split; [split; [reflexivity | discriminate]|].
  refine (proj1 (@login_then_token_effect Sample.backend_login_only
                   (JS.lit "bob@example.org") (JS.lit "hunter2") Sample.world_fresh
                   (JS.lit "token-2") eq_refl _)).
  discriminate.
Defined.

(** X12.  Submitting the login form sends one login request with the
    e-mail and password of the form, shows the alert 'Login failed. Please
    check your credentials.' exactly when the server rejects it, keeps what
    was typed and always ends with the loading flag off. *)
Theorem LoginForm_handleSubmit_outcome (backend : Backend) (w : World) :
  let email := LoginForm.email (loginForm w) in
  let password := LoginForm.password (loginForm w) in
  let w' := exec (LoginForm_handleSubmit backend) w in
  requests_added (LoginForm_handleSubmit backend) w = [POST_auth_login email password]
  /\ alerts_added (LoginForm_handleSubmit backend) w
     = match backend (sent (trace w)) (POST_auth_login email password) with
       | Ok _ => []
       | Rejected _ => [JS.lit "Login failed. Please check your credentials."]
       end
  /\ loginForm w'
     = {| LoginForm.email := email; LoginForm.password := password;
          LoginForm.loading := false |}.
Proof.
  intros email password w'. subst email password w'.
  unfold requests_added, alerts_added, LoginForm_handleSubmit, login,
    LoginForm_setLoading, setToken.
  run.
  destruct (backend (sent (trace w))
              (POST_auth_login (LoginForm.email (loginForm w))
                 (LoginForm.password (loginForm w))));
    simpl; repeat split; added.
Qed.

(** X13.  Submitting the registration form sends one registration request
    built from the form, shows the alert 'Registration failed. Please try
    again.' exactly when the server rejects it, keeps what was typed and
    always ends with the loading flag off; after a rejection the session is
    as it was. *)
Theorem RegisterForm_handleSubmit_outcome (backend : Backend) (w : World) :
  let userData := RegisterForm_userData (RegisterForm.form (registerForm w)) in
  let w' := exec (RegisterForm_handleSubmit backend) w in
  requests_added (RegisterForm_handleSubmit backend) w = [POST_auth_register userData]
  /\ registerForm w'
     = {| RegisterForm.form := RegisterForm.form (registerForm w);
          RegisterForm.loading := false |}
  /\ match backend (sent (trace w)) (POST_auth_register userData) with
     | Ok access_token =>
         alerts_added (RegisterForm_handleSubmit backend) w = []
         /\ AuthProvider.token (auth w') = Some access_token
         /\ localStorage_token w' = Some access_token
     | Rejected _ =>
         alerts_added (RegisterForm_handleSubmit backend) w
           = [JS.lit "Registration failed. Please try again."]
         /\ auth w' = auth w
         /\ localStorage_token w' = localStorage_token w
     end.
Proof.
  intros userData w'. subst userData w'.
  unfold requests_added, alerts_added, RegisterForm_handleSubmit, register,
    RegisterForm_setLoading, setToken.
  run.
  destruct (backend (sent (trace w))
              (POST_auth_register
                 (RegisterForm_userData (RegisterForm.form (registerForm w)))));
    simpl; repeat split; added.
Qed.

(** ** Further properties of the Dashboard *)

(** Case analysis on the answers of the server, outermost call first. *)
Ltac replies b :=
  repeat (match goal with
          | |- context [b ?h ?q] => destruct (b h q)
          end; simpl).

(** X14.  A list fetch that fails is logged to the console and nothing
    else: no alert, the three lists, the tab and the search term are what
    they were, and the loading flag is off again. *)
Theorem list_fetch_failure_keeps_lists (backend : Backend) (w : World) (e : Failure) :
  let bearer := localStorage_token w in
  (backend (sent (trace w)) (GET_users bearer) = Rejected e ->
   let w' := exec (fetchUsers backend) w in
   trace w' = trace w ++ [Sent (GET_users bearer);
                          ConsoleError (JS.lit "Failed to fetch users:") e]
   /\ dashboard w' = dashboard (exec (setLoading false) w))
  /\ (backend (sent (trace w)) (GET_swap_requests_my_requests bearer) = Rejected e ->
      let w' := exec (fetchMyRequests backend) w in
      trace w' = trace w ++ [Sent (GET_swap_requests_my_requests bearer);
                             ConsoleError (JS.lit "Failed to fetch requests:") e]
      /\ dashboard w' = dashboard (exec (setLoading false) w))
  /\ (backend (sent (trace w)) (GET_swap_requests_incoming bearer) = Rejected e ->
      let w' := exec (fetchIncomingRequests backend) w in
      trace w' = trace w ++ [Sent (GET_swap_requests_incoming bearer);
                             ConsoleError (JS.lit "Failed to fetch incoming requests:") e]
      /\ dashboard w' = dashboard (exec (setLoading false) w)).
Proof.
  intros bearer. subst bearer.
  unfold fetchUsers, fetchMyRequests, fetchIncomingRequests, setLoading, setUsers,
    setMyRequests, setIncomingRequests.
  repeat split; intros; run;
    match goal with H : _ = Rejected _ |- _ => rewrite H end;
    simpl; rewrite <- ?app_assoc; reflexivity.
Qed.

Lemma list_fetch_failure_keeps_lists_witness :
  Sample.backend_offline (sent (trace Sample.world))
    (GET_swap_requests_my_requests (localStorage_token Sample.world))
    = Rejected NetworkError
  /\ Dashboard.myRequests (dashboard (exec (fetchMyRequests Sample.backend_offline) Sample.world))
     = [Sample.request (JS.lit "pending")].
Proof.
  split; [reflexivity|].
  rewrite (proj2 (proj1 (proj2
    (@list_fetch_failure_keeps_lists Sample.backend_offline Sample.world NetworkError))
    eq_refl)).
  reflexivity.
Defined.

(** X15.  A list fetch that succeeds replaces its own list by the data
    returned, whatever the list held before, turns the loading flag off and
    leaves the other two lists, the tab and the search term alone; it shows
    and logs nothing. *)
Theorem list_fetch_success_replaces_own_list (backend : Backend) (w : World) :
  let bearer := localStorage_token w in
  (forall data,
      backend (sent (trace w)) (GET_users bearer) = Ok data ->
      let w' := exec (fetchUsers backend) w in
      trace w' = trace w ++ [Sent (GET_users bearer)]
      /\ dashboard w' = dashboard (exec (setUsers data ;; setLoading false) w))
  /\ (forall data,
      backend (sent (trace w)) (GET_swap_requests_my_requests bearer) = Ok data ->
      let w' := exec (fetchMyRequests backend) w in
      trace w' = trace w ++ [Sent (GET_swap_requests_my_requests bearer)]
      /\ dashboard w' = dashboard (exec (setMyRequests data ;; setLoading false) w))
  /\ (forall data,
      backend (sent (trace w)) (GET_swap_requests_incoming bearer) = Ok data ->
      let w' := exec (fetchIncomingRequests backend) w in
      trace w' = trace w ++ [Sent (GET_swap_requests_incoming bearer)]
      /\ dashboard w' = dashboard (exec (setIncomingRequests data ;; setLoading false) w)).
Proof.
  intros bearer. subst bearer.
  unfold fetchUsers, fetchMyRequests, fetchIncomingRequests, setLoading, setUsers,
    setMyRequests, setIncomingRequests.
  repeat split; intros; run;
    match goal with H : _ = Ok _ |- _ => rewrite H end;
    simpl; rewrite <- ?app_assoc; reflexivity.
Qed.

Lemma list_fetch_success_replaces_own_list_witness :
  Sample.backend_ok (sent (trace Sample.world))
    (GET_swap_requests_my_requests (localStorage_token Sample.world))
    = Ok [Sample.request (JS.lit "accepted")]
  /\ Dashboard.myRequests (dashboard (exec (fetchMyRequests Sample.backend_ok) Sample.world))
     = [Sample.request (JS.lit "accepted")].
Proof.
  split; [reflexivity|].
  rewrite (proj2 (proj1 (proj2
    (@list_fetch_success_replaces_own_list Sample.backend_ok Sample.world))
    [Sample.request (JS.lit "accepted")] eq_refl)).
  reflexivity.
Defined.

(** X16.  Activating a tab fetches that tab's list and nothing else: the
    user list for Browse, the outgoing list for My Requests, the incoming
    list for Incoming Requests, no request at all for the admin tab; the
    tab is then the active one. *)
Theorem tab_activation_fetches_its_list (backend : Backend) (t : Tab) (w : World) :
  let m := (setActiveTab t ;; Dashboard_useEffect backend) in
  requests_added m w = tab_fetch t (localStorage_token w)
  /\ Dashboard.activeTab (dashboard (exec m w)) = t.
Proof.
  intros m. subst m.
  unfold requests_added, Dashboard_useEffect, setActiveTab, fetchUsers,
    fetchMyRequests, fetchIncomingRequests, setLoading, setUsers, setMyRequests,
    setIncomingRequests.
  destruct t; run; replies backend; split; added.
Qed.

Lemma blank_trim_falsy s : blank s = true -> JS.truthy (JS.trim s) = false.
Proof. intros H. rewrite (trim_blank _ H). reflexivity. Qed.

Lemma nonblank_trim_truthy s : blank s = false -> JS.truthy (JS.trim s) = true.
Proof.
  intros H. destruct (JS.trim s) eqn:E; [|reflexivity].
  rewrite (trim_nil_blank _ E) in H. discriminate.
Qed.

(** X17.  A search term of white space only is treated like the empty one:
    searchBySkill returns at once, sends nothing and changes nothing. *)
Theorem searchBySkill_blank_term_is_noop (backend : Backend) (w : World) :
  blank (Dashboard.searchTerm (dashboard w)) = true ->
  searchBySkill backend w = (Returned tt, w).
Proof.
  intros Hb. unfold searchBySkill. run. rewrite (blank_trim_falsy _ Hb). reflexivity.
Qed.

Lemma searchBySkill_blank_term_is_noop_witness :
  blank (Dashboard.searchTerm
           (dashboard (exec (setSearchTerm (JS.lit "   ")) Sample.world_browsing))) = true
  /\ searchBySkill Sample.backend_ok (exec (setSearchTerm (JS.lit "   ")) Sample.world_browsing)
     = (Returned tt, exec (setSearchTerm (JS.lit "   ")) Sample.world_browsing).
Proof.
  split; [reflexivity|].
  exact (@searchBySkill_blank_term_is_noop Sample.backend_ok
           (exec (setSearchTerm (JS.lit "   ")) Sample.world_browsing) eq_refl).
Defined.

(** X18.  A search term with anything but white space in it sends one
    search request carrying the term exactly as typed (not trimmed).  The
    user list becomes the result, or stays as it was when the search fails;
    no alert is shown and the loading flag ends off. *)
Theorem searchBySkill_sends_term_as_typed (backend : Backend) (w : World) :
  blank (Dashboard.searchTerm (dashboard w)) = false ->
  let term := Dashboard.searchTerm (dashboard w) in
  let search := GET_users_search term (localStorage_token w) in
  let w' := exec (searchBySkill backend) w in
  requests_added (searchBySkill backend) w = [search]
  /\ alerts_added (searchBySkill backend) w = []
  /\ Dashboard.users (dashboard w')
     = match backend (sent (trace w)) search with
       | Ok data => data
       | Rejected _ => Dashboard.users (dashboard w)
       end
  /\ Dashboard.loading (dashboard w') = false
  /\ Dashboard.searchTerm (dashboard w') = term.
Proof.
  intros Hb term search w'. subst term search w'.
  unfold requests_added, alerts_added, searchBySkill, setLoading, setUsers. run.
  rewrite (nonblank_trim_truthy _ Hb). simpl.
  destruct (backend (sent (trace w))
              (GET_users_search (Dashboard.searchTerm (dashboard w)) (localStorage_token w)));
    simpl; repeat split; added.
Qed.

Lemma searchBySkill_sends_term_as_typed_witness :
  blank (Dashboard.searchTerm (dashboard Sample.world_searching)) = false
  /\ requests_added (searchBySkill Sample.backend_ok) Sample.world_searching
     = [GET_users_search (JS.lit " Guitar") (Some (JS.lit "token-0"))].
Proof.
  split; [reflexivity|].
  exact (proj1 (@searchBySkill_sends_term_as_typed Sample.backend_ok
                  Sample.world_searching eq_refl)).
Defined.

(** X20.  With two non-empty answers the click on 'Request Skill Swap'
    sends one creation request for the card's user carrying the answers
    exactly as typed, then shows one alert: the success message when the
    server accepts, 'Failed to send swap request' otherwise.  No list is
    fetched and no state changes. *)
Theorem UserCard_onClick_sends_answers_as_typed
    (backend : Backend) (targetUser : User.t)
    (requestedSkill offeredSkill : JS.str) (w : World) :
  requestedSkill <> [] -> offeredSkill <> [] ->
  let m := UserCard_onClick backend targetUser (Some requestedSkill) (Some offeredSkill) in
  let post := POST_swap_requests (User.id targetUser) requestedSkill offeredSkill
                (localStorage_token w) in
  requests_added m w = [post]
  /\ alerts_added m w
     = match backend (sent (trace w)) post with
       | Ok _ => [JS.lit "Swap request sent successfully!"]
       | Rejected _ => [JS.lit "Failed to send swap request"]
       end
  /\ same_state w (exec m w).
Proof.
  intros Hr Ho m post. subst m post.
  destruct requestedSkill as [|c r]; [congruence|].
  destruct offeredSkill as [|d o]; [congruence|].
  unfold requests_added, alerts_added, UserCard_onClick, createSwapRequest. run.
  rewrite ?sent_app. simpl. rewrite ?app_nil_r.
  match goal with
  | |- context [backend ?h ?q] => destruct (backend h q) eqn:Hq
  end; simpl; repeat split; added.
Qed.

Lemma UserCard_onClick_sends_answers_as_typed_witness :
  (JS.lit " Guitar " <> [] /\ JS.lit "Spanish" <> [])
  /\ requests_added
       (UserCard_onClick Sample.backend_ok Sample.alice
          (Some (JS.lit " Guitar ")) (Some (JS.lit "Spanish")))
       Sample.world_browsing
     = [POST_swap_requests (JS.lit "u-alice") (JS.lit " Guitar ") (JS.lit "Spanish")
          (Some (JS.lit "token-0"))].
Proof.
  split; [split; discriminate|].
  refine (proj1 (@UserCard_onClick_sends_answers_as_typed Sample.backend_ok Sample.alice
                   (JS.lit " Guitar ") (JS.lit "Spanish") Sample.world_browsing _ _));
    discriminate.
Defined.

(** X21.  For any status string and any type string, known or not, a card
    shows at most two buttons and shows one only on a pending or accepted
    request.  Every button acts on the card's own request: a deletion only
    on an outgoing pending card, 'accepted' or 'rejected' only on an incoming
    pending card, 'completed' only on an accepted card; no button writes
    another status. *)
Theorem SwapRequestCard_buttons_sound (request : SwapRequest.t) (type : JS.str) :
  let status := SwapRequest.status request in
  let id := SwapRequest.id request in
  List.length (SwapRequestCard request type) <= 2
  /\ (SwapRequestCard request type <> [] ->
      status = JS.lit "pending" \/ status = JS.lit "accepted")
  /\ Forall
       (fun b =>
          (onClick b = call_deleteSwapRequest id
           /\ type = JS.lit "outgoing" /\ status = JS.lit "pending")
          \/ ((onClick b = call_updateSwapRequest id (JS.lit "accepted")
               \/ onClick b = call_updateSwapRequest id (JS.lit "rejected"))
              /\ type = JS.lit "incoming" /\ status = JS.lit "pending")
          \/ (onClick b = call_updateSwapRequest id (JS.lit "completed")
              /\ status = JS.lit "accepted"))
       (SwapRequestCard request type).
Proof.
  intros status id. subst status id. unfold SwapRequestCard.
  destruct (JS.eqb (SwapRequest.status request) (JS.lit "pending")) eqn:Ep.
  - apply eqb_eq in Ep. rewrite Ep.
    change (JS.eqb (JS.lit "pending") (JS.lit "accepted")) with false.
    rewrite !andb_true_r.
    destruct (JS.eqb type (JS.lit "incoming")) eqn:Ei.
    + apply eqb_eq in Ei. subst type.
      change (JS.eqb (JS.lit "incoming") (JS.lit "outgoing")) with false.
      simpl. split; [auto | split; [auto|]].
      constructor; [right; left; auto|].
      constructor; [right; left; auto | constructor].
    + destruct (JS.eqb type (JS.lit "outgoing")) eqn:Eo.
      * apply eqb_eq in Eo. simpl. split; [auto | split; [auto|]].
        constructor; [left; auto | constructor].
      * simpl. split; [auto | split; [congruence | constructor]].
  - rewrite !andb_false_r.
    destruct (JS.eqb (SwapRequest.status request) (JS.lit "accepted")) eqn:Ea.
    + apply eqb_eq in Ea. simpl. split; [auto | split; [auto|]].
      constructor; [right; right; auto | constructor].
    + simpl. split; [auto | split; [congruence | constructor]].
Qed.

(** ** Further properties of the profile editor *)

(** X22.  When the server rejects the profile update, the editor logs the
    error and shows 'Failed to update profile. Please try again.'; no
    /auth/me refresh is sent, the session and the Dashboard (the modal's open
    flag included) are as they were, the form keeps what was typed and the
    saving flag ends off. *)
Theorem profile_save_failure_keeps_form
    (backend : Backend) (w : World) (e : Failure) :
  let updateData := ProfileModal_updateData (ProfileModal.form (profileModal w)) in
  let put := PUT_users_me updateData (localStorage_token w) in
  backend (sent (trace w)) put = Rejected e ->
  let w' := exec (ProfileModal_handleSubmit backend) w in
  trace w'
    = trace w ++ [Sent put;
                  ConsoleError (JS.lit "Failed to update profile:") e;
                  Alert (JS.lit "Failed to update profile. Please try again.")]
  /\ auth w' = auth w
  /\ localStorage_token w' = localStorage_token w
  /\ dashboard w' = dashboard w
  /\ profileModal w'
     = {| ProfileModal.form := ProfileModal.form (profileModal w);
          ProfileModal.saving := false |}.
Proof.
  intros updateData put Hreply w'. subst updateData put w'.
  unfold ProfileModal_handleSubmit, ProfileModal_setSaving. run.
  rewrite Hreply. simpl. rewrite <- !app_assoc. repeat split.
Qed.

Lemma profile_save_failure_keeps_form_witness :
  Sample.backend_offline (sent (trace Sample.world))
    (PUT_users_me (ProfileModal_updateData (ProfileModal.form (profileModal Sample.world)))
       (localStorage_token Sample.world)) = Rejected NetworkError
  /\ auth (exec (ProfileModal_handleSubmit Sample.backend_offline) Sample.world)
     = auth Sample.world.
Proof.
  split; [reflexivity|].
  exact (proj1 (proj2
    (@profile_save_failure_keeps_form Sample.backend_offline Sample.world
       NetworkError eq_refl))).
Defined.

(** X23.  When the server accepts the profile update, the editor refreshes
    the session with /auth/me (sent with the token in memory), shows 'Profile
    updated successfully!', closes the modal and turns the saving flag off.
    The user in memory becomes the answer of /auth/me, not the answer of the
    update; and when that refresh fails the session is cleared, although the
    success message is still shown. *)
Theorem profile_save_success_refreshes_session (backend : Backend) (w : World) :
  let updateData := ProfileModal_updateData (ProfileModal.form (profileModal w)) in
  let put := PUT_users_me updateData (localStorage_token w) in
  let me := GET_auth_me (AuthProvider.token (auth w)) in
  forall updated,
    backend (sent (trace w)) put = Ok updated ->
    let w' := exec (ProfileModal_handleSubmit backend) w in
    requests_added (ProfileModal_handleSubmit backend) w = [put; me]
    /\ alerts_added (ProfileModal_handleSubmit backend) w
       = [JS.lit "Profile updated successfully!"]
    /\ Dashboard.showProfileModal (dashboard w') = false
    /\ ProfileModal.saving (profileModal w') = false
    /\ match backend (sent (trace w) ++ [put]) me with
       | Ok user =>
           AuthProvider.user (auth w') = Some user
           /\ AuthProvider.token (auth w') = AuthProvider.token (auth w)
           /\ localStorage_token w' = localStorage_token w
       | Rejected _ => session_cleared w'
       end.
Proof.
  intros updateData put me updated Hreply w'. subst updateData put me w'.
  unfold requests_added, alerts_added, ProfileModal_handleSubmit,
    ProfileModal_setSaving, fetchUser, logout, setShowProfileModal, setUser, setToken.
  run. rewrite Hreply. simpl. rewrite ?sent_app. simpl.
  destruct (backend
              (sent (trace w)
               ++ [PUT_users_me
                     (ProfileModal_updateData (ProfileModal.form (profileModal w)))
                     (localStorage_token w)])
              (GET_auth_me (AuthProvider.token (auth w))));
    simpl; repeat split; added.
Qed.

Lemma profile_save_success_refreshes_session_witness :
  Sample.backend_put_only (sent (trace Sample.world))
    (PUT_users_me (ProfileModal_updateData (ProfileModal.form (profileModal Sample.world)))
       (localStorage_token Sample.world)) = Ok Sample.bob
  /\ alerts_added (ProfileModal_handleSubmit Sample.backend_put_only) Sample.world
     = [JS.lit "Profile updated successfully!"]
  /\ session_cleared (exec (ProfileModal_handleSubmit Sample.backend_put_only) Sample.world).
Proof.
  split; [reflexivity|].
  pose proof (@profile_save_success_refreshes_session Sample.backend_put_only
                Sample.world Sample.bob eq_refl) as H.
  split; [exact (proj1 (proj2 H)) | exact (proj2 (proj2 (proj2 (proj2 H))))].
Defined.

(** ** What the handlers never do *)

(** X24.  No Dashboard operation touches the session: the user and the
    token in memory, the stored token and the three forms are what they were,
    whatever the server answers; and none but createSwapRequest ever shows an
    alert. *)
Theorem dashboard_calls_leave_session_alone
    (backend : Backend) (c : DashboardCall) (w : World) :
  let w' := exec (dashboard_call backend c) w in
  auth w' = auth w
  /\ localStorage_token w' = localStorage_token w
  /\ loginForm w' = loginForm w
  /\ registerForm w' = registerForm w
  /\ profileModal w' = profileModal w
  /\ match c with
     | do_createSwapRequest _ _ _ => True
     | _ => alerts_added (dashboard_call backend c) w = []
     end.
Proof.
  intros w'. subst w'. unfold alerts_added.
  destruct c as [ | | | |t r o|i st|i]; simpl;
    unfold searchBySkill, createSwapRequest, updateSwapRequest, deleteSwapRequest;
    unfold fetchUsers, fetchMyRequests, fetchIncomingRequests, setLoading, setUsers,
      setMyRequests, setIncomingRequests; run.
  - replies backend; repeat split; added.
  - replies backend; repeat split; added.
  - replies backend; repeat split; added.
  - destruct (JS.truthy (JS.trim (Dashboard.searchTerm (dashboard w)))); simpl;
      replies backend; repeat split; added.
  - replies backend; repeat split.
  - destruct (backend (sent (trace w)) (PUT_swap_requests i st (localStorage_token w)));
      simpl; [|repeat split; added].
    destruct (Dashboard.activeTab (dashboard w)); simpl; rewrite ?sent_app; simpl;
      replies backend; repeat split; added.
  - destruct (backend (sent (trace w)) (DELETE_swap_requests i (localStorage_token w)));
      simpl; [|repeat split; added].
    rewrite ?sent_app; simpl; replies backend; repeat split; added.
Qed.

(** X25.  Every handler catches the failures of its requests: whatever the
    server answers, no Dashboard operation, no call of the session store and
    no submit or click handler ends with an exception. *)
Theorem no_handler_throws (backend : Backend) (w : World) :
  (forall c, result (dashboard_call backend c) w = Returned tt)
  /\ (forall c, result (auth_call backend c) w = Returned tt)
  /\ result (LoginForm_handleSubmit backend) w = Returned tt
  /\ result (RegisterForm_handleSubmit backend) w = Returned tt
  /\ result (ProfileModal_handleSubmit backend) w = Returned tt
  /\ (forall targetUser answer1 answer2,
      result (UserCard_onClick backend targetUser answer1 answer2) w = Returned tt).
Proof.
  split; [|split; [|split; [|split; [|split]]]].
  - intros c.
    destruct c as [ | | | |t r o|i st|i]; simpl;
      unfold searchBySkill, createSwapRequest, updateSwapRequest, deleteSwapRequest;
      unfold fetchUsers, fetchMyRequests, fetchIncomingRequests, setLoading, setUsers,
        setMyRequests, setIncomingRequests; run.
    + replies backend; reflexivity.
    + replies backend; reflexivity.
    + replies backend; reflexivity.
    + destruct (JS.truthy (JS.trim (Dashboard.searchTerm (dashboard w)))); simpl;
        replies backend; reflexivity.
    + replies backend; reflexivity.
    + destruct (backend (sent (trace w)) (PUT_swap_requests i st (localStorage_token w)));
        simpl; [|reflexivity].
      destruct (Dashboard.activeTab (dashboard w)); simpl; rewrite ?sent_app; simpl;
        replies backend; reflexivity.
    + destruct (backend (sent (trace w)) (DELETE_swap_requests i (localStorage_token w)));
        simpl; [|reflexivity].
      rewrite ?sent_app; simpl; replies backend; reflexivity.
  - intros c. destruct (auth_call_keeps_sync backend c w) as [w1 [E _]].
    unfold result. rewrite E. reflexivity.
  - unfold LoginForm_handleSubmit, login, LoginForm_setLoading, setToken. run.
    replies backend; reflexivity.
  - unfold RegisterForm_handleSubmit, register, RegisterForm_setLoading, setToken. run.
    replies backend; reflexivity.
  - unfold ProfileModal_handleSubmit, ProfileModal_setSaving, fetchUser, logout,
      setShowProfileModal, setUser, setToken. run.
    replies backend; rewrite ?sent_app; simpl; replies backend; reflexivity.
  - intros targetUser answer1 answer2.
    unfold UserCard_onClick, createSwapRequest. run.
    destruct answer1 as [[|c r]|], answer2 as [[|d o]|]; simpl; try reflexivity.
    replies backend; reflexivity.
Qed.
